(** * Checkout orchestration of the nekuda agent demo

    Shallow embedding of the frontend checkout code:
    - [utils/errorHandlers] ([classifyError], [getErrorMessage]);
    - the [startCheckout] handler ([hooks/useStageShopping]);
    - the [collectPaymentInfo] renderer ([hooks/useStageCollectPayment]);
    - the [processPurchase] handler ([hooks/useStageCompletePurchase]),
      with its submission, polling loop and catch block.

    Network calls, timers and React state setters are modelled by explicit
    state passing: the handler reads a state record, returns the updated
    record, and records every request and timer it issues in an event log.
    Strings are Rocq strings (byte sequences); [toLowerCase] is modelled on
    ASCII letters. *)

From Stdlib Require Import Bool ZArith Lia List Ascii String.
From Stdlib Require Import Numbers.DecimalString.
Import ListNotations.
Open Scope string_scope.
#[local] Set Warnings "-register-all".

(* ------------------------------------------------------------------ *)
(** ** JavaScript values and the operators the code relies on *)

Inductive JsVal :=
| JUndefined
| JNull
| JBool (b : bool)
| JNum (n : Z)
| JStr (s : string)
| JObj (props : list (string * JsVal))
| JError (message : string).

Definition Z_to_string (n : Z) : string :=
  NilEmpty.string_of_int (Z.to_int n).

Definition nat_to_string (n : nat) : string := Z_to_string (Z.of_nat n).

(** Truthiness ([NaN] is not modelled). *)
Definition truthy (v : JsVal) : bool :=
  match v with
  | JUndefined | JNull => false
  | JBool b => b
  | JNum n => negb (Z.eqb n 0)
  | JStr s => negb (String.eqb s "")
  | JObj _ | JError _ => true
  end.

(** [a || b]: the first operand when truthy, else the second. *)
Definition js_or (a b : JsVal) : JsVal := if truthy a then a else b.

Fixpoint assoc_lookup (k : string) (ps : list (string * JsVal)) : JsVal :=
  match ps with
  | [] => JUndefined
  | (k', v) :: ps' => if String.eqb k k' then v else assoc_lookup k ps'
  end.

(** Optional chaining [v?.k]. Primitives have neither [message] nor
    [error]; an [Error] object has [message]. *)
Definition get_prop (v : JsVal) (k : string) : JsVal :=
  match v with
  | JObj ps => assoc_lookup k ps
  | JError m => if String.eqb k "message" then JStr m else JUndefined
  | _ => JUndefined
  end.

(** [String(v)]. *)
Definition js_String (v : JsVal) : string :=
  match v with
  | JUndefined => "undefined"
  | JNull => "null"
  | JBool true => "true"
  | JBool false => "false"
  | JNum n => Z_to_string n
  | JStr s => s
  | JObj _ => "[object Object]"
  | JError m => if String.eqb m "" then "Error" else "Error: " ++ m
  end.

Definition lower_ascii (c : ascii) : ascii :=
  let n := nat_of_ascii c in
  if (65 <=? n)%nat && (n <=? 90)%nat then ascii_of_nat (n + 32) else c.

(** [s.toLowerCase()] on ASCII letters. *)
Fixpoint toLowerCase (s : string) : string :=
  match s with
  | EmptyString => EmptyString
  | String c s' => String (lower_ascii c) (toLowerCase s')
  end.

Fixpoint prefixb (p s : string) : bool :=
  match p, s with
  | EmptyString, _ => true
  | String _ _, EmptyString => false
  | String a p', String b s' => Ascii.eqb a b && prefixb p' s'
  end.

(** [s.includes(needle)]. *)
Fixpoint includes (s needle : string) : bool :=
  prefixb needle s ||
  match s with
  | EmptyString => false
  | String _ s' => includes s' needle
  end.

(* ------------------------------------------------------------------ *)
(** ** [utils/errorHandlers]: [PurchaseError], [classifyError] *)

Inductive ErrorType := Automation | Payment | Network | Timeout | Unknown.

Record PurchaseError := mkPurchaseError {
  type : ErrorType;
  message : string;
  details : option string;
  recoverable : bool
}.

(** [error?.message || error?.error || String(error)] *)
Definition extractMessage (error : JsVal) : JsVal :=
  js_or (get_prop error "message")
        (js_or (get_prop error "error") (JStr (js_String error))).

(** The substring tests on the lower-cased message, in source order. *)
Definition classifyLower (errorMessage lowerMessage : string) : PurchaseError :=
  if includes lowerMessage "fetch" || includes lowerMessage "network"
     || includes lowerMessage "connection" then
    mkPurchaseError Network "Cannot connect to checkout service" (Some errorMessage) true
  else if includes lowerMessage "automation" || includes lowerMessage "browser" then
    mkPurchaseError Automation "Browser automation failed" (Some errorMessage) true
  else if includes lowerMessage "payment" || includes lowerMessage "nekuda"
          || includes lowerMessage "sdk" then
    mkPurchaseError Payment "Payment processing failed" (Some errorMessage) true
  else if includes lowerMessage "timeout" then
    mkPurchaseError Timeout "Purchase timed out" (Some errorMessage) true
  else
    mkPurchaseError Unknown "An unexpected error occurred" (Some errorMessage) true.

(** [classifyError]. [errorMessage.toLowerCase()] throws a [TypeError]
    when the chosen value is not a string: [None]. *)
Definition classifyError (error : JsVal) : option PurchaseError :=
  match extractMessage error with
  | JStr errorMessage => Some (classifyLower errorMessage (toLowerCase errorMessage))
  | _ => None
  end.

(** [getErrorMessage]. *)
Definition getErrorMessage (error : PurchaseError) : string :=
  match type error with
  | Network => "❌ Connection Error: " ++ message error ++ "

🔧 Please ensure:
• The checkout service is running on http://localhost:8001
• Run: cd backend/checkout_service && python main.py
• Check for any firewall or network issues

Your cart has been preserved."
  | Automation => "❌ Browser Automation Error: " ++ message error ++ "

🔧 Troubleshooting:
• Ensure the automation service is running
• Check browser permissions
• Try again in a few moments

Your cart has been preserved."
  | Payment => "❌ Payment Processing Error: " ++ message error ++ "

💳 Please check:
• Your nekuda SDK credentials
• Payment method validity
• Account balance

Your cart has been preserved."
  | Timeout => "⏱️ Purchase Timeout: " ++ message error ++ "

The purchase is taking longer than expected. 
Your cart has been preserved. Please try again later."
  | Unknown => "❌ Purchase Failed: " ++ message error ++ "

🔄 Your cart has been preserved. 
Please try again or contact support if the issue persists."
  end.

(* ------------------------------------------------------------------ *)
(** ** Session state ([useGlobalState], [useCart], wallet storage) *)

Inductive Stage := shopping | collectPayment | completePurchase.

Definition Stage_eqb (a b : Stage) : bool :=
  match a, b with
  | shopping, shopping | collectPayment, collectPayment
  | completePurchase, completePurchase => true
  | _, _ => false
  end.

(** A cart line; the fields the checkout code reads. *)
Record Item := mkItem {
  item_id : string;
  name : string;
  quantity : Z
}.

(** The [result] payload of a completed purchase. *)
Record Result := mkResult { store_order_id : option string }.

(** The session: the global state ([stage], [paymentToken],
    [lastPurchaseResult], [lastError]), the cart context ([cartItems],
    [total], kept in cents) and the wallet token in client storage. The
    hooks read and clear the wallet token through [getWalletToken] /
    [clearWalletToken]; the model has one slot for it. *)
Record St := mkSt {
  stage : Stage;
  paymentToken : option string;
  wallet : option string;
  cartItems : list Item;
  total : Z;
  lastPurchaseResult : option Result;
  lastError : option PurchaseError
}.

Definition setStage (s : Stage) (st : St) : St :=
  mkSt s (paymentToken st) (wallet st) (cartItems st) (total st)
       (lastPurchaseResult st) (lastError st).
Definition setPaymentToken (t : option string) (st : St) : St :=
  mkSt (stage st) t (wallet st) (cartItems st) (total st)
       (lastPurchaseResult st) (lastError st).
Definition clearWalletToken (st : St) : St :=
  mkSt (stage st) (paymentToken st) None (cartItems st) (total st)
       (lastPurchaseResult st) (lastError st).
Definition setCartItems (c : list Item) (st : St) : St :=
  mkSt (stage st) (paymentToken st) (wallet st) c (total st)
       (lastPurchaseResult st) (lastError st).
Definition setLastPurchaseResult (r : Result) (st : St) : St :=
  mkSt (stage st) (paymentToken st) (wallet st) (cartItems st) (total st)
       (Some r) (lastError st).
Definition setLastError (e : PurchaseError) (st : St) : St :=
  mkSt (stage st) (paymentToken st) (wallet st) (cartItems st) (total st)
       (lastPurchaseResult st) (Some e).

(** [a || b] on [string | null]. *)
Definition opt_or (a b : option string) : option string :=
  match a with
  | Some s => if String.eqb s "" then b else a
  | None => b
  end.

(** [t && t !== '' && t !== 'token_placeholder'] (used by [startCheckout]
    and [collectPaymentInfo]); [processPurchase] tests its negation
    [!t || t === '' || t === 'token_placeholder']. *)
Definition hasValidToken (t : option string) : bool :=
  match t with
  | Some s => negb (String.eqb s "") && negb (String.eqb s "token_placeholder")
  | None => false
  end.

(** [total.toFixed(2)] of a total held in cents. *)
Definition toFixed2 (cents : Z) : string :=
  let c := Z.abs cents in
  let r := Z.modulo c 100 in
  (if (cents <? 0)%Z then "-" else "")
  ++ Z_to_string (Z.div c 100) ++ "."
  ++ (if (r <? 10)%Z then "0" else "") ++ Z_to_string r.

Fixpoint join (sep : string) (xs : list string) : string :=
  match xs with
  | [] => ""
  | [x] => x
  | x :: xs' => x ++ sep ++ join sep xs'
  end.

Definition nl : string := String (ascii_of_nat 10) EmptyString.

(* ------------------------------------------------------------------ *)
(** ** The network as seen by [processPurchase] *)

(** A purchase-status payload. [status] is a string ([pending],
    [completed], [failed], or anything else, which the loop treats as not
    terminal); [message], [result] and [error] may be absent. *)
Record StatusData := mkStatusData {
  status : string;
  status_message : option string;
  status_result : option Result;
  status_error : option string
}.

Definition opt_prop (k : string) (v : option JsVal) : list (string * JsVal) :=
  match v with Some x => [(k, x)] | None => [] end.

(** The parsed JSON object handed to [classifyError(statusData)]. *)
Definition status_to_js (sd : StatusData) : JsVal :=
  JObj (("status", JStr (status sd))
        :: opt_prop "message" (option_map JStr (status_message sd))
        ++ opt_prop "result"
             (option_map (fun r => JObj (opt_prop "store_order_id"
                                          (option_map JStr (store_order_id r))))
                         (status_result sd))
        ++ opt_prop "error" (option_map JStr (status_error sd)))%list.

(** Outcome of [fetch('.../api/browser-checkout')] and its [json()]:
    2xx with [purchase_id], non-2xx with the [detail] field, or a thrown
    error (e.g. [TypeError: Failed to fetch]) with its message. *)
Inductive SubmitResp :=
| SubmitOk (purchase_id : string)
| SubmitHttpError (detail : option string)
| SubmitThrow (msg : string).

(** Outcome of one [fetch('.../api/purchase-status/<id>')] and its [json()]. *)
Inductive PollResp :=
| PollOk (sd : StatusData)
| PollHttpError
| PollThrow (msg : string).

(** What the handler does to the outside world, in order. *)
Inductive Ev :=
| EvPost (payment_card_token : string) (items : list Item) (total : Z)
| EvSleep (ms : Z)
| EvGet (url : string).

(** The environment of one run: the checkout response, the status service
    (the response to the [n]-th poll, [n] counted from 1) and [Date.now()]. *)
Record Env := mkEnv {
  submit : SubmitResp;
  svc : nat -> PollResp;
  now : Z
}.

(* ------------------------------------------------------------------ *)
(** ** [processPurchase]: the polling loop *)

Definition maxAttempts : nat := 120.
Definition fixedUserId : string := "test_user_123".
Definition statusUrl (purchaseId : string) : string :=
  "http://localhost:8001/api/purchase-status/" ++ purchaseId.

(** [if (statusData.message && statusData.message !== lastStatus)
     { lastStatus = statusData.message; statusUpdates.push(`📍 ...`) }] *)
Definition collect_step (lastStatus : string) (statusUpdates : list string)
    (msg : option string) : string * list string :=
  match msg with
  | Some m =>
      if negb (String.eqb m "") && negb (String.eqb m lastStatus)
      then (m, app statusUpdates ["📍 " ++ m])
      else (lastStatus, statusUpdates)
  | None => (lastStatus, statusUpdates)
  end.

(** How the [while] loop is left. *)
Inductive LoopOut :=
| LoopCompleted (sd : StatusData) (statusUpdates : list string)
| LoopFailed (sd : StatusData) (statusUpdates : list string)
| LoopThrow (err : JsVal) (statusUpdates : list string)
| LoopExhausted (statusUpdates : list string).

(** [while (attempts < maxAttempts) { attempts++; sleep 5000; poll; ... }];
    [fuel] bounds the iterations (the loop is entered with
    [fuel = maxAttempts] and [attempts = 0]). *)
Fixpoint poll_loop (poll : nat -> PollResp) (url : string) (fuel attempts : nat)
    (lastStatus : string) (statusUpdates : list string) (log : list Ev)
    : LoopOut * nat * list Ev :=
  match fuel with
  | O => (LoopExhausted statusUpdates, attempts, log)
  | S fuel' =>
      if (attempts <? maxAttempts)%nat then
        let attempts := S attempts in
        let log := app log [EvSleep 5000; EvGet url] in
        match poll attempts with
        | PollHttpError =>
            (LoopThrow (JError "Error checking purchase status") statusUpdates, attempts, log)
        | PollThrow m => (LoopThrow (JError m) statusUpdates, attempts, log)
        | PollOk sd =>
            let '(lastStatus, statusUpdates) :=
              collect_step lastStatus statusUpdates (status_message sd) in
            if String.eqb (status sd) "completed" then
              (LoopCompleted sd statusUpdates, attempts, log)
            else if String.eqb (status sd) "failed" then
              (LoopFailed sd statusUpdates, attempts, log)
            else poll_loop poll url fuel' attempts lastStatus statusUpdates log
        end
      else (LoopExhausted statusUpdates, attempts, log)
  end.

(* ------------------------------------------------------------------ *)
(** ** [processPurchase]: the [try] block, the [catch] block, the handler *)

(** [a || d] for an optional string field with a string default. *)
Definition or_default (a : option string) (d : string) : string :=
  match a with
  | Some s => if String.eqb s "" then d else s
  | None => d
  end.

Definition itemsSummary (items : list Item) : string :=
  join ", " (map (fun item => Z_to_string (quantity item) ++ "x " ++ name item) items).

Definition successText (orderId : string) (tot : Z) (summary : string) : string :=
  "🎉 Purchase completed successfully!" ++ nl ++ nl
  ++ "✅ Order ID: " ++ orderId ++ nl
  ++ "👤 User: " ++ fixedUserId ++ nl
  ++ "💰 Total: $" ++ toFixed2 tot ++ nl
  ++ "📦 Items: " ++ summary ++ nl ++ nl
  ++ "Your cart has been cleared. You can continue shopping!".

(** [new Error(`Purchase timed out after ${maxAttempts * 5 / 60} minutes`)];
    the division is exact ([600 / 60]). *)
Definition timeoutMessage : string :=
  "Purchase timed out after " ++ Z_to_string (Z.of_nat maxAttempts * 5 / 60) ++ " minutes".

(** The [TypeError] raised by [errorMessage.toLowerCase()] in [classifyError]
    when the chosen message is not a string. *)
Definition toLowerCaseTypeError : JsVal :=
  JError "errorMessage.toLowerCase is not a function".

(** How the [try] block is left: a [return] with the state it leaves, or a
    throw (no state setter runs before any throw of the block). *)
Inductive TryOut :=
| TryReturn (msg : string) (st : St)
| TryThrow (err : JsVal).

Definition try_block (env : Env) (st : St) (token : string) : TryOut * list Ev :=
  let log := [EvPost token (cartItems st) (total st)] in
  match submit env with
  | SubmitThrow m => (TryThrow (JError m), log)
  | SubmitHttpError detail => (TryThrow (JError (or_default detail "Checkout failed")), log)
  | SubmitOk purchaseId =>
      let statusUpdates := ["🔄 Purchase initiated with ID: " ++ purchaseId] in
      let '(out, _, log) :=
        poll_loop (svc env) (statusUrl purchaseId) maxAttempts 0 "" statusUpdates log in
      match out with
      | LoopCompleted sd statusUpdates =>
          let result := match status_result sd with Some r => r | None => mkResult None end in
          let orderId := or_default (store_order_id result)
                                    ("NEKUDA-" ++ Z_to_string (now env)) in
          let st' := setStage shopping
                       (setLastPurchaseResult result
                         (clearWalletToken (setPaymentToken None (setCartItems [] st)))) in
          let statusHistory :=
            if (1 <? List.length statusUpdates)%nat then join nl statusUpdates ++ nl ++ nl else "" in
          (TryReturn (statusHistory ++ successText orderId (total st) (itemsSummary (cartItems st))) st',
           log)
      | LoopFailed sd statusUpdates =>
          match classifyError (status_to_js sd) with
          | Some error =>
              let st' := setStage shopping (setLastError error st) in
              let statusHistory :=
                if (0 <? List.length statusUpdates)%nat then join nl statusUpdates ++ nl ++ nl else "" in
              (TryReturn (statusHistory ++ getErrorMessage error) st', log)
          | None => (TryThrow toLowerCaseTypeError, log)
          end
      | LoopThrow err _ => (TryThrow err, log)
      | LoopExhausted _ => (TryThrow (JError timeoutMessage), log)
      end
  end.

(** The handler's promise: resolved with a string, or rejected (only if
    [classifyError] throws inside the [catch] block). *)
Inductive HandlerOut :=
| Returned (msg : string)
| Rejected (err : JsVal).

Definition processPurchase (env : Env) (st : St) : HandlerOut * St * list Ev :=
  match cartItems st with
  | [] => (Returned "Cannot complete purchase - your cart is empty!", setStage shopping st, [])
  | _ :: _ =>
      let missing :=
        (Returned "Payment information is missing. Please provide payment details.",
         setStage collectPayment st, []) in
      match opt_or (paymentToken st) (wallet st) with
      | None => missing
      | Some token =>
          if String.eqb token "" || String.eqb token "token_placeholder" then missing
          else
            let '(out, log) := try_block env st token in
            match out with
            | TryReturn msg st' => (Returned msg, st', log)
            | TryThrow error =>
                match classifyError error with
                | Some classifiedError =>
                    (Returned (getErrorMessage classifiedError),
                     setStage shopping (setLastError classifiedError st), log)
                | None => (Rejected toLowerCaseTypeError, st, log)
                end
            end
      end
  end.

(* ------------------------------------------------------------------ *)
(** ** [startCheckout] and [collectPaymentInfo] *)

Definition startCheckout (st : St) : string * St :=
  match cartItems st with
  | [] => ("Your cart is empty. Please add some items before checking out.", st)
  | _ :: _ =>
      let existingToken := opt_or (wallet st) (paymentToken st) in
      let prefix := "Starting checkout for " ++ nat_to_string (List.length (cartItems st))
                    ++ " items totaling $" ++ toFixed2 (total st) in
      if hasValidToken existingToken then
        (prefix ++ ". Payment information found, processing purchase...",
         setStage completePurchase st)
      else
        (prefix ++ ". I'll need to collect your payment information.",
         setStage collectPayment st)
  end.

(** What the [collectPaymentInfo] renderer shows. *)
Inductive View := AlreadyOnFile | WalletWidgetView.

(** [collectPaymentInfo] while executing. [entered] is what the user does
    with the wallet widget if it is shown: [Some cardTokenId] when its
    [onSuccess] fires, [None] otherwise. Returns what is rendered, the
    [respond] text (if any) and the state. The hook imports the per-user
    [utils/walletState], whose [saveWalletToken(userId, token)] receives
    [cardTokenId] as the user id and [undefined] as the token: it writes
    under the key [nekuda_wallet_token_<cardTokenId>], not into the wallet
    slot the handlers read, so the [wallet] field is left as it is. *)
Definition collectPaymentInfo (entered : option string) (st : St)
    : View * option string * St :=
  let existingToken := opt_or (wallet st) (paymentToken st) in
  if hasValidToken existingToken then
    (AlreadyOnFile, Some "Payment information already exists",
     setStage completePurchase st)
  else
    match entered with
    | Some cardTokenId =>
        (WalletWidgetView, Some "Payment information collected successfully",
         setStage completePurchase (setPaymentToken (Some cardTokenId) st))
    | None => (WalletWidgetView, None, st)
    end.

(** [available: stage === s ? "enabled" : "disabled"]: an action runs only
    in its own stage; otherwise it is not offered and nothing happens. *)
Definition available (s : Stage) (st : St) : bool := Stage_eqb (stage st) s.

(* ------------------------------------------------------------------ *)
(** ** Auxiliary notions for the statements *)

(** A poll response that neither ends nor breaks the loop. *)
Definition nonterminal (r : PollResp) : Prop :=
  exists sd, r = PollOk sd /\ status sd <> "completed" /\ status sd <> "failed".

(** The requests and timers of [n] loop iterations. *)
Definition pollEvents (url : string) (n : nat) : list Ev :=
  List.concat (List.repeat [EvSleep 5000; EvGet url] n).

Definition updates_of (out : LoopOut) : list string :=
  match out with
  | LoopCompleted _ u | LoopFailed _ u | LoopThrow _ u | LoopExhausted u => u
  end.

(** The classifier as the spec words it: keyword groups tested in priority
    order on the lower-cased message. *)
Definition spec_error_type (lowerMessage : string) : ErrorType :=
  if existsb (includes lowerMessage) ["fetch"; "network"; "connection"] then Network
  else if existsb (includes lowerMessage) ["automation"; "browser"] then Automation
  else if existsb (includes lowerMessage) ["payment"; "nekuda"; "sdk"] then Payment
  else if includes lowerMessage "timeout" then Timeout
  else Unknown.

(** A field that [classifyError] can take as its message: a string or a
    falsy value. *)
Definition string_or_falsy (v : JsVal) : bool :=
  match v with JStr _ => true | _ => negb (truthy v) end.

Definition message_fields_ok (v : JsVal) : bool :=
  match v with
  | JObj ps => string_or_falsy (assoc_lookup "message" ps)
               && string_or_falsy (assoc_lookup "error" ps)
  | _ => true
  end.

(** The token-validity predicate as the spec words it. *)
Definition spec_isValid (t : option string) : bool :=
  match t with
  | Some s => (10 <=? String.length s)%nat && negb (String.eqb s "token_placeholder")
  | None => false
  end.

(** The status history as the loop builds it once the polls [i], ...,
    [i + k - 1] have all been answered: each answer's [message] goes
    through [collect_step]. *)
Fixpoint collect_from (poll : nat -> PollResp) (i k : nat) (lastStatus : string)
    (statusUpdates : list string) : list string :=
  match k with
  | O => statusUpdates
  | S k' =>
      let msg := match poll i with PollOk sd => status_message sd | _ => None end in
      let '(lastStatus, statusUpdates) := collect_step lastStatus statusUpdates msg in
      collect_from poll (S i) k' lastStatus statusUpdates
  end.

(** Sample session and status services. *)
Definition sample_item : Item := mkItem "p1" "Mug" 2.

Definition sample_state (tok : option string) : St :=
  mkSt completePurchase tok None [sample_item] 1999 None None.

Definition pending_with (msg : option string) : PollResp :=
  PollOk (mkStatusData "pending" msg None None).

Definition always_pending_env (msg : option string) : Env :=
  mkEnv (SubmitOk "pid1") (fun _ => pending_with msg) 42.

Definition completes_at_3_env : Env :=
  mkEnv (SubmitOk "pid1")
        (fun n => if (n <? 3)%nat then pending_with (Some "Working")
                  else PollOk (mkStatusData "completed" None (Some (mkResult (Some "ORD9"))) None))
        42.

Definition fails_at_2_env : Env :=
  mkEnv (SubmitOk "pid1")
        (fun n => if (n <? 2)%nat then pending_with (Some "Working")
                  else PollOk (mkStatusData "failed" (Some "Card declined") None None))
        42.

(* ------------------------------------------------------------------ *)
(** ** [utils/walletState]: per-user wallet token in [localStorage] *)

Module WalletState.

(** A [Storage] area: keys to string values, one entry per key. *)
Definition Storage := list (string * string).

Fixpoint getItem (k : string) (s : Storage) : option string :=
  match s with
  | [] => None
  | (k', v) :: s' => if String.eqb k k' then Some v else getItem k s'
  end.

Definition removeItem (k : string) (s : Storage) : Storage :=
  filter (fun kv => negb (String.eqb k (fst kv))) s.

Definition setItem (k v : string) (s : Storage) : Storage := (k, v) :: removeItem k s.

Definition getUserWalletKey (userId : string) : string := "nekuda_wallet_token_" ++ userId.

(** [window] is [typeof window !== 'undefined']. *)
Definition saveWalletToken (window : bool) (userId token : string) (s : Storage) : Storage :=
  if window then setItem (getUserWalletKey userId) token s else s.

Definition getWalletToken (window : bool) (userId : string) (s : Storage) : option string :=
  if window then getItem (getUserWalletKey userId) s else None.

Definition clearWalletToken (window : bool) (userId : string) (s : Storage) : Storage :=
  if window then removeItem (getUserWalletKey userId) s else s.

Definition hasWalletToken (window : bool) (userId : string) (s : Storage) : bool :=
  match getWalletToken window userId s with Some _ => true | None => false end.

Record Card := mkCard { card_id : string; isDefault : bool }.

(** What [await apiService.getAllCards(userId)] gives: a list, [null], or a
    rejection (caught by the [catch] block). *)
Inductive CardsResp := CardsList (cards : list Card) | CardsNull | CardsThrow.

(** [checkAndSaveExistingCards]. *)
Definition checkAndSaveExistingCards (window : bool) (userId : string)
    (resp : CardsResp) (s : Storage) : Storage :=
  match resp with
  | CardsList ((c0 :: _) as cards) =>
      let defaultCard := match find isDefault cards with Some c => c | None => c0 end in
      saveWalletToken window userId (card_id defaultCard) s
  | _ => s
  end.

End WalletState.

(** [part_010]: the session-storage variant with one fixed key. *)
Module SessionWallet.

Definition walletStateKey : string := "nekuda_wallet_token".

Definition saveWalletToken (window : bool) (token : string)
    (s : WalletState.Storage) : WalletState.Storage :=
  if window then WalletState.setItem walletStateKey token s else s.

Definition getWalletToken (window : bool) (s : WalletState.Storage) : option string :=
  if window then WalletState.getItem walletStateKey s else None.

Definition clearWalletToken (window : bool) (s : WalletState.Storage) : WalletState.Storage :=
  if window then WalletState.removeItem walletStateKey s else s.

Definition hasWalletToken (window : bool) (s : WalletState.Storage) : bool :=
  match getWalletToken window s with Some _ => true | None => false end.

End SessionWallet.

(* ------------------------------------------------------------------ *)
(** ** Cart actions of [ShoppingCart] ([addToCart], [removeFromCart],
       [clearCart]); prices in cents *)

Module Cart.

(** Prices and quantities are JavaScript numbers; the model holds integer
    quantities (and prices in cents) as [Z]. The actions only add, subtract
    and compare quantities, and a JavaScript number does so exactly on
    integers whose exact results have magnitude at most [2^53]; statements
    that depend on exact arithmetic assume quantities in that range. *)
Record CartItem := mkCartItem { id : string; name : string; price : Z; quantity : Z }.

Record Product := mkProduct {
  product_id : string;
  product_name : string;
  product_price : Z
}.

Definition with_quantity (item : CartItem) (q : Z) : CartItem :=
  mkCartItem (id item) (name item) (price item) q.

(** [addToCart({productId, quantity = 1})]: [loading] and [error] are the
    product-loading state of the component. *)
Definition addToCart (loading : bool) (error : option string) (products : list Product)
    (productId : string) (quantity_arg : option Z) (cart : list CartItem)
    : string * list CartItem :=
  let q := match quantity_arg with Some q => q | None => 1%Z end in
  let add :=
    match find (fun p => String.eqb (product_id p) productId) products with
    | None =>
        ("Product " ++ productId ++ " not found. Available products: "
         ++ join ", " (map product_id products), cart)
    | Some product =>
        let cart' :=
          if existsb (fun item => String.eqb (id item) productId) cart then
            map (fun item => if String.eqb (id item) productId
                             then with_quantity item (quantity item + q) else item) cart
          else app cart [mkCartItem (product_id product) (product_name product)
                                    (product_price product) (if Z.eqb q 0 then 1 else q)] in
        ("Added " ++ Z_to_string q ++ "x " ++ product_name product ++ " to cart!", cart')
    end in
  if loading then ("Loading products from server...", cart)
  else match error with
       | Some e => if String.eqb e "" then add else ("Error loading products: " ++ e, cart)
       | None => add
       end.

(** [removeFromCart({productId, quantity})]; [quantity] may be omitted. *)
Definition removeFromCart (productId : string) (quantity_arg : option Z)
    (cart : list CartItem) : string * list CartItem :=
  match find (fun item => String.eqb (id item) productId) cart with
  | None => ("Product " ++ productId ++ " not found in cart", cart)
  | Some existingItem =>
      let drop := filter (fun item => negb (String.eqb (id item) productId)) cart in
      let cart' :=
        match quantity_arg with
        | None => drop
        | Some q =>
            if (quantity existingItem <=? q)%Z then drop
            else map (fun item => if String.eqb (id item) productId
                                  then with_quantity item (quantity item - q) else item) cart
        end in
      let removedQty :=
        match quantity_arg with
        | None => quantity existingItem
        | Some q => Z.min q (quantity existingItem)
        end in
      let remainingQty := (quantity existingItem - removedQty)%Z in
      ("Removed " ++ Z_to_string removedQty ++ "x " ++ name existingItem ++ " from cart"
       ++ (if (0 <? remainingQty)%Z then ". " ++ Z_to_string remainingQty ++ " remaining."
           else "."), cart')
  end.

(** [clearCart]. *)
Definition clearCart (cart : list CartItem) : string * list CartItem :=
  ("Cart cleared successfully!", []).

End Cart.

(** [formatErrorForHistory]; [timestamp] is [new Date().toLocaleTimeString()]. *)
Definition formatErrorForHistory (timestamp : string) (error : PurchaseError) : string :=
  "❌ Failed Order (" ++ timestamp ++ "): " ++ message error ++ " - "
  ++ or_default (details error) "No details".

(** No two neighbouring entries of a list are equal. *)
Fixpoint no_adjacent_dup (xs : list string) : Prop :=
  match xs with
  | x :: (y :: _) as xs' => x <> y /\ no_adjacent_dup xs'
  | _ => True
  end.

(* ------------------------------------------------------------------ *)
(** ** Lemmas about the classifier and the loop *)

Lemma classifyLower_recoverable em lm : recoverable (classifyLower em lm) = true.
Proof.
  unfold classifyLower;
    repeat match goal with |- context [if ?c then _ else _] => destruct c end;
    reflexivity.
Qed.

Lemma classifyError_recoverable v e : classifyError v = Some e -> recoverable e = true.
Proof.
  unfold classifyError. destruct (extractMessage v); try discriminate.
  intros H; injection H as <-. apply classifyLower_recoverable.
Qed.

Lemma classifyError_JError m :
  exists e, classifyError (JError m) = Some e /\ recoverable e = true.
Proof.
  unfold classifyError, extractMessage, js_or; simpl.
  destruct (String.eqb m "") eqn:E; simpl;
    (eexists; split; [reflexivity | apply classifyLower_recoverable]).
Qed.

Lemma poll_loop_spec poll url : forall k a ls ups log,
  match poll_loop poll url k a ls ups log with
  | (LoopCompleted sd _, a', _) =>
      (a < a' <= maxAttempts)%nat /\ poll a' = PollOk sd /\ status sd = "completed"
  | (LoopThrow err _, _, _) => exists m, err = JError m
  | _ => True
  end.
Proof.
  induction k as [|k IH]; intros a ls ups log; simpl; [exact I|].
  destruct (a <? maxAttempts)%nat eqn:Ha; [|exact I].
  apply Nat.ltb_lt in Ha.
  destruct (poll (S a)) as [sd| |m] eqn:Hp; [|eauto|eauto].
  destruct (collect_step ls ups (status_message sd)) as [ls' ups'].
  destruct (String.eqb (status sd) "completed") eqn:Hc.
  - apply String.eqb_eq in Hc. repeat split; auto; unfold maxAttempts in *; lia.
  - destruct (String.eqb (status sd) "failed"); [exact I|].
    specialize (IH (S a) ls' ups' (app log [EvSleep 5000; EvGet url])).
    destruct (poll_loop poll url k (S a) ls' ups' _) as [[o a'] l'].
    destruct o; auto. destruct IH as (H1 & H2 & H3). repeat split; auto; lia.
Qed.

Lemma poll_loop_exhausts poll url :
  (forall n, nonterminal (poll n)) ->
  forall k a ls ups log, a + k = maxAttempts ->
  exists ups', poll_loop poll url k a ls ups log
               = (LoopExhausted ups', maxAttempts, app log (pollEvents url k)).
Proof.
  intros Hpend. induction k as [|k IH]; intros a ls ups log Hk; simpl.
  - rewrite app_nil_r, Nat.add_0_r in *. subst a. eauto.
  - assert (Ha : (a <? maxAttempts)%nat = true) by (apply Nat.ltb_lt; lia).
    rewrite Ha.
    destruct (Hpend (S a)) as (sd & Hp & Hc & Hf). rewrite Hp.
    destruct (collect_step ls ups (status_message sd)) as [ls' ups'].
    apply String.eqb_neq in Hc, Hf. rewrite Hc, Hf.
    destruct (IH (S a) ls' ups' (app log [EvSleep 5000; EvGet url])) as [u Hu]; [lia|].
    rewrite Hu, <- app_assoc. eauto.
Qed.

Lemma poll_loop_reaches poll url sd n :
  status sd = "completed" -> poll n = PollOk sd ->
  (forall m, (1 <= m < n)%nat -> nonterminal (poll m)) ->
  forall k a ls ups log, a + k = maxAttempts -> (a < n <= maxAttempts)%nat ->
  exists ups' log', poll_loop poll url k a ls ups log = (LoopCompleted sd ups', n, log').
Proof.
  intros Hc Hn Hpre. induction k as [|k IH]; intros a ls ups log Hk Han; simpl.
  - lia.
  - assert (Ha : (a <? maxAttempts)%nat = true) by (apply Nat.ltb_lt; lia).
    rewrite Ha.
    destruct (Nat.eq_dec (S a) n) as [<-|Hne].
    + rewrite Hn. destruct (collect_step ls ups (status_message sd)) as [ls' ups'].
      rewrite Hc. simpl. eauto.
    + destruct (Hpre (S a)) as (sd' & Hp & Hc' & Hf'); [lia|]. rewrite Hp.
      destruct (collect_step ls ups (status_message sd')) as [ls' ups'].
      apply String.eqb_neq in Hc', Hf'. rewrite Hc', Hf'.
      apply IH; lia.
Qed.

(** A run of the loop that ends [completed] stops at the first terminal
    poll: every earlier poll was answered and not terminal. *)
Lemma poll_loop_completed_first poll url : forall k a ls ups log sd u a' log',
  poll_loop poll url k a ls ups log = (LoopCompleted sd u, a', log') ->
  (a < a' <= maxAttempts)%nat /\ poll a' = PollOk sd /\ status sd = "completed" /\
  forall m, (a < m < a')%nat -> nonterminal (poll m).
Proof.
  induction k as [|k IH]; intros a ls ups log sd u a' log'; simpl; [discriminate|].
  destruct (a <? maxAttempts)%nat eqn:Ha; [|discriminate].
  apply Nat.ltb_lt in Ha.
  destruct (poll (S a)) as [sd0| |m] eqn:Hp; [|discriminate|discriminate].
  destruct (collect_step ls ups (status_message sd0)) as [ls' ups'].
  destruct (String.eqb (status sd0) "completed") eqn:Hc.
  - intros H. injection H as <- _ <- _. apply String.eqb_eq in Hc.
    split; [unfold maxAttempts in *; lia|]. split; [exact Hp|]. split; [exact Hc|].
    intros m Hm. lia.
  - destruct (String.eqb (status sd0) "failed") eqn:Hf; [discriminate|].
    intros H. destruct (IH _ _ _ _ _ _ _ _ H) as (H1 & H2 & H3 & H4).
    split; [lia|]. split; [exact H2|]. split; [exact H3|].
    intros m Hm. destruct (Nat.eq_dec m (S a)) as [->|Hne]; [|apply H4; lia].
    exists sd0. apply String.eqb_neq in Hc, Hf. auto.
Qed.

Lemma hasValidToken_some token :
  hasValidToken (Some token) = true ->
  (String.eqb token "" || String.eqb token "token_placeholder") = false.
Proof.
  simpl. destruct (String.eqb token ""), (String.eqb token "token_placeholder");
    simpl; congruence.
Qed.

(** Past both guards, the handler runs the [try] block and its [catch]. *)
Lemma processPurchase_enters_try env st :
  cartItems st <> [] ->
  hasValidToken (opt_or (paymentToken st) (wallet st)) = true ->
  exists token,
    opt_or (paymentToken st) (wallet st) = Some token /\
    processPurchase env st =
      let '(out, log) := try_block env st token in
      match out with
      | TryReturn msg st' => (Returned msg, st', log)
      | TryThrow error =>
          match classifyError error with
          | Some classifiedError =>
              (Returned (getErrorMessage classifiedError),
               setStage shopping (setLastError classifiedError st), log)
          | None => (Rejected toLowerCaseTypeError, st, log)
          end
      end.
Proof.
  intros Hcart Hvalid. unfold processPurchase.
  destruct (opt_or (paymentToken st) (wallet st)) as [token|] eqn:Et;
    [|discriminate].
  exists token. split; [reflexivity|].
  destruct (cartItems st) eqn:Ec; [congruence|].
  rewrite (hasValidToken_some token Hvalid). reflexivity.
Qed.

(** The [catch] block never rethrows for an [Error] object. *)
Lemma catch_JError (st : St) (m : string) (log : list Ev) :
  exists e,
    match classifyError (JError m) with
    | Some classifiedError =>
        (Returned (getErrorMessage classifiedError),
         setStage shopping (setLastError classifiedError st), log)
    | None => (Rejected toLowerCaseTypeError, st, log)
    end = (Returned (getErrorMessage e), setStage shopping (setLastError e st), log)
    /\ recoverable e = true.
Proof.
  destruct (classifyError_JError m) as (e & -> & He). eauto.
Qed.

(* ------------------------------------------------------------------ *)
(** ** Claims about [processPurchase] *)

(** C1: when every status poll is non-terminal ([pending]), the handler
    issues exactly [maxAttempts] = 120 polls, each after a 5000 ms sleep,
    keeps the cart and both tokens, returns to [shopping]; the thrown
    ["Purchase timed out after 10 minutes"] is classified as [Unknown],
    not [Timeout], because it does not contain the keyword ["timeout"]. *)
Theorem processPurchase_all_pending (env : Env) (st : St) (pid : string)
  (Hcart : cartItems st <> [])
  (Hvalid : hasValidToken (opt_or (paymentToken st) (wallet st)) = true)
  (Hsub : submit env = SubmitOk pid)
  (Hpend : forall n, nonterminal (svc env n)) :
  exists token e,
    opt_or (paymentToken st) (wallet st) = Some token /\
    processPurchase env st =
      (Returned (getErrorMessage e), setStage shopping (setLastError e st),
       EvPost token (cartItems st) (total st) :: pollEvents (statusUrl pid) maxAttempts) /\
    type e = Unknown /\ details e = Some timeoutMessage /\ recoverable e = true.
Proof.
  destruct (processPurchase_enters_try env st Hcart Hvalid) as (token & Et & ->).
  exists token, (mkPurchaseError Unknown "An unexpected error occurred"
                                 (Some timeoutMessage) true).
  split; [exact Et|].
  unfold try_block. rewrite Hsub.
  destruct (poll_loop_exhausts (svc env) (statusUrl pid) Hpend maxAttempts 0 ""
              ["🔄 Purchase initiated with ID: " ++ pid]
              [EvPost token (cartItems st) (total st)] eq_refl) as [u ->].
  repeat split.
Qed.

(** C2: when the first terminal poll (at some [n <= 120]) reports
    [completed], the handler clears the cart, the session token and the
    wallet token, stores the result, returns to [shopping], and returns
    the status history followed by the success text with order id, user
    id, total, item summary and the cleared-cart notice. *)
Theorem processPurchase_completed (env : Env) (st : St) (pid : string)
  (n : nat) (sd : StatusData)
  (Hcart : cartItems st <> [])
  (Hvalid : hasValidToken (opt_or (paymentToken st) (wallet st)) = true)
  (Hsub : submit env = SubmitOk pid)
  (Hn : (1 <= n <= maxAttempts)%nat)
  (Hsd : svc env n = PollOk sd) (Hc : status sd = "completed")
  (Hpre : forall m, (1 <= m < n)%nat -> nonterminal (svc env m)) :
  let result := match status_result sd with Some r => r | None => mkResult None end in
  let orderId := or_default (store_order_id result) ("NEKUDA-" ++ Z_to_string (now env)) in
  exists statusHistory log,
    processPurchase env st =
      (Returned (statusHistory ++ successText orderId (total st) (itemsSummary (cartItems st))),
       mkSt shopping None None [] (total st) (Some result) (lastError st), log).
Proof.
  intros result orderId.
  destruct (processPurchase_enters_try env st Hcart Hvalid) as (token & _ & ->).
  unfold try_block. rewrite Hsub.
  destruct (poll_loop_reaches (svc env) (statusUrl pid) sd n Hc Hsd Hpre maxAttempts 0 ""
              ["🔄 Purchase initiated with ID: " ++ pid]
              [EvPost token (cartItems st) (total st)] eq_refl ltac:(lia))
    as (u & l & ->).
  eexists _, l. reflexivity.
Qed.

(** C3: once both guards pass, every outcome either keeps the cart, the
    session token, the wallet token and the last result, records a
    recoverable error and returns to [shopping], or is the run in which the
    checkout returned a purchase id and the [n]-th poll (the first terminal
    one, all earlier polls answered [pending]-like) reported [completed]:
    only then are cart and tokens cleared. *)
Theorem processPurchase_failure_preserves (env : Env) (st : St)
  (Hcart : cartItems st <> [])
  (Hvalid : hasValidToken (opt_or (paymentToken st) (wallet st)) = true) :
  let '(_, st', _) := processPurchase env st in
  (cartItems st' = cartItems st /\ paymentToken st' = paymentToken st /\
   wallet st' = wallet st /\ lastPurchaseResult st' = lastPurchaseResult st /\
   stage st' = shopping /\ exists e, lastError st' = Some e /\ recoverable e = true)
  \/
  (exists pid n sd, submit env = SubmitOk pid /\ (1 <= n <= maxAttempts)%nat /\
   (forall m, (1 <= m < n)%nat -> nonterminal (svc env m)) /\
   svc env n = PollOk sd /\ status sd = "completed" /\
   cartItems st' = [] /\ paymentToken st' = None /\
   wallet st' = None /\ stage st' = shopping).
Proof.
  destruct (processPurchase_enters_try env st Hcart Hvalid) as (token & _ & ->).
  assert (Hthrow : forall m (log : list Ev), exists e,
    match classifyError (JError m) with
    | Some ce => (Returned (getErrorMessage ce), setStage shopping (setLastError ce st), log)
    | None => (Rejected toLowerCaseTypeError, st, log)
    end = (Returned (getErrorMessage e), setStage shopping (setLastError e st), log)
    /\ recoverable e = true) by (intros; apply catch_JError).
  unfold try_block.
  destruct (submit env) as [pid|detail|m] eqn:Es.
  - pose proof (poll_loop_spec (svc env) (statusUrl pid) maxAttempts 0 ""
                  ["🔄 Purchase initiated with ID: " ++ pid]
                  [EvPost token (cartItems st) (total st)]) as Hspec.
    pose proof (poll_loop_completed_first (svc env) (statusUrl pid) maxAttempts 0 ""
                  ["🔄 Purchase initiated with ID: " ++ pid]
                  [EvPost token (cartItems st) (total st)]) as Hfirst.
    destruct (poll_loop (svc env) (statusUrl pid) maxAttempts 0 "" _ _)
      as [[out a'] log'].
    destruct out as [sd u|sd u|err u|u].
    + right. destruct (Hfirst sd u a' log' eq_refl) as (Ha & Hp & Hc & Hpre).
      exists pid, a', sd. split; [reflexivity|]. split; [lia|].
      split; [intros m Hm; apply Hpre; lia|]. repeat split; auto.
    + destruct (classifyError (status_to_js sd)) as [e|] eqn:Ee.
      * left. repeat split. exists e. split; [reflexivity|].
        exact (classifyError_recoverable _ _ Ee).
      * destruct (classifyError toLowerCaseTypeError) as [e|] eqn:E'.
        -- left. repeat split. exists e. split; [reflexivity|].
           exact (classifyError_recoverable _ _ E').
        -- vm_compute in E'. discriminate.
    + destruct Hspec as [m ->]. destruct (Hthrow m log') as (e & He & Hr).
      rewrite He. left. repeat split. exists e. auto.
    + destruct (Hthrow timeoutMessage log') as (e & He & Hr).
      rewrite He. left. repeat split. exists e. auto.
  - destruct (Hthrow (or_default detail "Checkout failed") [EvPost token (cartItems st) (total st)])
      as (e & He & Hr).
    rewrite He. left. repeat split. exists e. auto.
  - destruct (Hthrow m [EvPost token (cartItems st) (total st)]) as (e & He & Hr).
    rewrite He. left. repeat split. exists e. auto.
Qed.

Lemma pending_nonterminal msg : nonterminal (pending_with msg).
Proof.
  exists (mkStatusData "pending" msg None None). split; [reflexivity|].
  split; discriminate.
Qed.

Lemma processPurchase_all_pending_witness :
  exists token e,
    opt_or (paymentToken (sample_state (Some "tok_1234567890")))
           (wallet (sample_state (Some "tok_1234567890"))) = Some token /\
    processPurchase (always_pending_env None) (sample_state (Some "tok_1234567890")) =
      (Returned (getErrorMessage e),
       setStage shopping (setLastError e (sample_state (Some "tok_1234567890"))),
       EvPost token [sample_item] 1999 :: pollEvents (statusUrl "pid1") maxAttempts) /\
    type e = Unknown /\ details e = Some timeoutMessage /\ recoverable e = true.
Proof.
  apply (processPurchase_all_pending (always_pending_env None)
           (sample_state (Some "tok_1234567890")) "pid1").
  - discriminate.
  - reflexivity.
  - reflexivity.
  - intros n. exact (pending_nonterminal None).
Defined.

Lemma processPurchase_completed_witness :
  exists statusHistory log,
    processPurchase completes_at_3_env (sample_state (Some "tok_1234567890")) =
      (Returned (statusHistory ++ successText "ORD9" 1999 (itemsSummary [sample_item])),
       mkSt shopping None None [] 1999 (Some (mkResult (Some "ORD9"))) None, log).
Proof.
  apply (processPurchase_completed completes_at_3_env
           (sample_state (Some "tok_1234567890")) "pid1" 3
           (mkStatusData "completed" None (Some (mkResult (Some "ORD9"))) None)).
  - discriminate.
  - reflexivity.
  - reflexivity.
  - unfold maxAttempts; lia.
  - reflexivity.
  - reflexivity.
  - intros m Hm. simpl.
    assert (E : (m <? 3)%nat = true) by (apply Nat.ltb_lt; lia). rewrite E.
    exact (pending_nonterminal (Some "Working")).
Defined.

Lemma processPurchase_failure_preserves_witness :
  let '(_, st', _) :=
    processPurchase (always_pending_env None) (sample_state (Some "tok_1234567890")) in
  (cartItems st' = [sample_item] /\ paymentToken st' = Some "tok_1234567890" /\
   wallet st' = None /\ lastPurchaseResult st' = None /\
   stage st' = shopping /\ exists e, lastError st' = Some e /\ recoverable e = true)
  \/
  (exists pid n sd, submit (always_pending_env None) = SubmitOk pid /\
   (1 <= n <= maxAttempts)%nat /\
   (forall m, (1 <= m < n)%nat -> nonterminal (svc (always_pending_env None) m)) /\
   svc (always_pending_env None) n = PollOk sd /\
   status sd = "completed" /\ cartItems st' = [] /\ paymentToken st' = None /\
   wallet st' = None /\ stage st' = shopping).
Proof.
  exact (processPurchase_failure_preserves (always_pending_env None)
           (sample_state (Some "tok_1234567890"))
           ltac:(discriminate) eq_refl).
Defined.

(** C4 (as amended): with an empty cart the handler returns to [shopping]
    and reports the empty cart; with a non-empty cart and a token that
    fails the code's check (null, [""] or ["token_placeholder"], session
    token first, else the stored one) it moves to [collectPayment] and
    reports missing payment; in both cases no request is issued. *)
Theorem processPurchase_guards (env : Env) (st : St) :
  (cartItems st = [] ->
   processPurchase env st =
     (Returned "Cannot complete purchase - your cart is empty!", setStage shopping st, []))
  /\
  (cartItems st <> [] ->
   hasValidToken (opt_or (paymentToken st) (wallet st)) = false ->
   processPurchase env st =
     (Returned "Payment information is missing. Please provide payment details.",
      setStage collectPayment st, [])).
Proof.
  unfold processPurchase. split.
  - intros ->. reflexivity.
  - intros Hcart Hinv. destruct (cartItems st) eqn:Ec; [congruence|].
    destruct (opt_or (paymentToken st) (wallet st)) as [token|]; [|reflexivity].
    simpl in Hinv.
    destruct (String.eqb token ""), (String.eqb token "token_placeholder");
      simpl in *; congruence.
Qed.

Lemma processPurchase_guards_witness :
  processPurchase completes_at_3_env (sample_state (Some "token_placeholder")) =
    (Returned "Payment information is missing. Please provide payment details.",
     setStage collectPayment (sample_state (Some "token_placeholder")), []).
Proof.
  apply (proj2 (processPurchase_guards completes_at_3_env
                  (sample_state (Some "token_placeholder")))).
  - discriminate.
  - reflexivity.
Defined.

(** C4 refuted: a 3-character session token, invalid for the spec's
    predicate, passes the guard; the order is submitted and the stage is
    not [collectPayment]. *)
Lemma processPurchase_short_token_submits :
  spec_isValid (Some "abc") = false /\
  match processPurchase completes_at_3_env (sample_state (Some "abc")) with
  | (_, st', log) => log <> [] /\ stage st' <> collectPayment
  end.
Proof.
  split; [reflexivity|]. vm_compute. split; discriminate.
Qed.

(* ------------------------------------------------------------------ *)
(** ** Claims about [classifyError] and the token check *)

Lemma string_or_falsy_truthy v :
  string_or_falsy v = true -> truthy v = true -> exists s, v = JStr s.
Proof.
  intros H1 H2. destruct v as [| |b|n|s|ps|m]; simpl in *; eauto;
    try discriminate; [destruct b | destruct (Z.eqb n 0)]; discriminate.
Qed.

Lemma extractMessage_string v :
  message_fields_ok v = true -> exists s, extractMessage v = JStr s.
Proof.
  unfold extractMessage, js_or.
  destruct v as [| |b|n|s|ps|m]; simpl; intros Hok; eauto.
  - apply andb_true_iff in Hok as [Hm He].
    destruct (truthy (assoc_lookup "message" ps)) eqn:Tm.
    + exact (string_or_falsy_truthy _ Hm Tm).
    + destruct (truthy (assoc_lookup "error" ps)) eqn:Te; eauto.
      exact (string_or_falsy_truthy _ He Te).
  - destruct (String.eqb m ""); simpl; eauto.
Qed.

Lemma classifyLower_spec em lm :
  type (classifyLower em lm) = spec_error_type lm /\
  details (classifyLower em lm) = Some em /\
  recoverable (classifyLower em lm) = true.
Proof.
  unfold classifyLower, spec_error_type. simpl existsb.
  rewrite !orb_false_r, !orb_assoc.
  repeat match goal with |- context [if ?c then _ else _] => destruct c end;
    repeat split.
Qed.

(** C5 (as amended): [classifyError] takes [.message] if truthy, else
    [.error] if truthy, else [String(error)]. When that value is a string
    (always the case for strings, numbers, booleans, [null], [undefined],
    [Error] objects and objects whose [message] and [error] fields are
    strings or falsy) it returns the classification by keyword priority
    (network, automation, payment, timeout, unknown) with [details] the
    message and [recoverable = true]; when it is a truthy non-string,
    [toLowerCase] throws. *)
Theorem classifyError_spec :
  (forall v e, classifyError v = Some e ->
     recoverable e = true /\
     exists em, extractMessage v = JStr em /\ details e = Some em /\
                type e = spec_error_type (toLowerCase em))
  /\ (forall v, (forall em, extractMessage v <> JStr em) -> classifyError v = None)
  /\ (forall v, message_fields_ok v = true -> exists e, classifyError v = Some e)
  /\ (forall v, extractMessage v =
        js_or (get_prop v "message") (js_or (get_prop v "error") (JStr (js_String v)))).
Proof.
  split; [|split; [|split]].
  - intros v e. unfold classifyError.
    destruct (extractMessage v) as [| | | |em| |]; try discriminate.
    intros H; injection H as <-.
    destruct (classifyLower_spec em (toLowerCase em)) as (H1 & H2 & H3).
    split; [exact H3|]. exists em. auto.
  - intros v Hns. unfold classifyError.
    destruct (extractMessage v); auto. exfalso. exact (Hns s eq_refl).
  - intros v Hok. destruct (extractMessage_string v Hok) as [s Hs].
    unfold classifyError. rewrite Hs. eauto.
  - reflexivity.
Qed.

Lemma classifyError_spec_witness :
  exists e, classifyError (JStr "Network down") = Some e.
Proof.
  exact (proj1 (proj2 (proj2 classifyError_spec)) (JStr "Network down") eq_refl).
Defined.

(** C5 refuted: a truthy non-string [message] makes [toLowerCase] throw. *)
Lemma classifyError_numeric_message_throws :
  classifyError (JObj [("message", JNum 42)]) = None.
Proof. reflexivity. Qed.

(** C6 (as amended): the check is false exactly for null, [""] and
    ["token_placeholder"], and true for every other string whatever its
    length. *)
Theorem hasValidToken_iff (t : option string) :
  hasValidToken t = true <->
  exists s, t = Some s /\ s <> "" /\ s <> "token_placeholder".
Proof.
  destruct t as [s|]; simpl.
  - rewrite andb_true_iff, !negb_true_iff, !String.eqb_neq. split.
    + intros [H1 H2]. eauto.
    + intros (s' & Hs & H1 & H2). injection Hs as <-. auto.
  - split; [discriminate|]. intros (s & Hs & _). discriminate.
Qed.

(** C6 refuted: a 3-character token passes the code's check. *)
Lemma hasValidToken_short_token :
  (String.length "abc" < 10)%nat /\ hasValidToken (Some "abc") = true.
Proof. split; [simpl; lia | reflexivity]. Qed.

(* ------------------------------------------------------------------ *)
(** ** Claims about [startCheckout] and [collectPaymentInfo] *)

(** C7 (as amended): with a non-empty cart, [startCheckout] takes the
    stored wallet token if non-empty, else the session token, and moves to
    [completePurchase] when it passes the code's check, to [collectPayment]
    otherwise; nothing else in the state changes. *)
Theorem startCheckout_stage (st : St) (Hcart : cartItems st <> []) :
  snd (startCheckout st) =
    setStage (if hasValidToken (opt_or (wallet st) (paymentToken st))
              then completePurchase else collectPayment) st.
Proof.
  unfold startCheckout. destruct (cartItems st) eqn:Ec; [congruence|].
  destruct (hasValidToken (opt_or (wallet st) (paymentToken st))); reflexivity.
Qed.

Lemma startCheckout_stage_witness :
  snd (startCheckout (setStage shopping (sample_state (Some "tok_1234567890")))) =
    setStage completePurchase (setStage shopping (sample_state (Some "tok_1234567890"))).
Proof.
  exact (startCheckout_stage (setStage shopping (sample_state (Some "tok_1234567890")))
           ltac:(discriminate)).
Defined.

(** C7 refuted: with only a 3-character session token (no valid token by
    the spec's predicate) checkout goes straight to [completePurchase]. *)
Lemma startCheckout_short_token :
  spec_isValid (opt_or None (Some "abc")) = false /\
  stage (snd (startCheckout (mkSt shopping (Some "abc") None [sample_item] 1999 None None)))
    = completePurchase.
Proof. split; reflexivity. Qed.

(** C9 (as amended): when a token passing the code's check exists (the
    stored one if non-empty, else the session one), [collectPaymentInfo]
    shows no wallet widget and ignores any entry, leaves both tokens as
    they are, responds ["Payment information already exists"] and moves
    the stage to [completePurchase]; running it again from there gives the
    same result. It returns no token and changes the stage. *)
Theorem collectPaymentInfo_existing_token (entered : option string) (st : St)
  (Hvalid : hasValidToken (opt_or (wallet st) (paymentToken st)) = true) :
  collectPaymentInfo entered st =
    (AlreadyOnFile, Some "Payment information already exists", setStage completePurchase st)
  /\ paymentToken (setStage completePurchase st) = paymentToken st
  /\ wallet (setStage completePurchase st) = wallet st
  /\ (forall entered',
        collectPaymentInfo entered' (setStage completePurchase st) =
          (AlreadyOnFile, Some "Payment information already exists",
           setStage completePurchase st)).
Proof.
  unfold collectPaymentInfo. rewrite Hvalid.
  repeat split. intros entered'. simpl. rewrite Hvalid. reflexivity.
Qed.

Lemma collectPaymentInfo_existing_token_witness :
  collectPaymentInfo (Some "tok_new_0987654321")
    (mkSt collectPayment None (Some "tok_1234567890") [sample_item] 1999 None None) =
    (AlreadyOnFile, Some "Payment information already exists",
     mkSt completePurchase None (Some "tok_1234567890") [sample_item] 1999 None None).
Proof.
  exact (proj1 (collectPaymentInfo_existing_token (Some "tok_new_0987654321")
                  (mkSt collectPayment None (Some "tok_1234567890") [sample_item] 1999 None None)
                  eq_refl)).
Defined.

(** C9 refuted: in [collectPayment] with a stored token, the call is not a
    no-op (the stage becomes [completePurchase]) and the response is a
    fixed text, not the token. *)
Lemma collectPaymentInfo_not_noop :
  match collectPaymentInfo None
          (mkSt collectPayment None (Some "tok_1234567890") [sample_item] 1999 None None) with
  | (_, resp, st') => stage st' <> collectPayment /\ resp <> Some "tok_1234567890"
  end.
Proof. simpl. split; discriminate. Qed.

(* ------------------------------------------------------------------ *)
(** ** Claims about the status history *)

Lemma collect_step_cases ls ups msg :
  collect_step ls ups msg = (ls, ups) \/
  exists m, msg = Some m /\ m <> "" /\ m <> ls /\
            collect_step ls ups msg = (m, app ups ["📍 " ++ m]).
Proof.
  unfold collect_step. destruct msg as [m|]; [|auto].
  destruct (String.eqb m "") eqn:E1; [auto|].
  destruct (String.eqb m ls) eqn:E2; [auto|].
  apply String.eqb_neq in E1, E2. right. eauto.
Qed.

(** C10: a status message that is absent or empty is never added; every
    entry the loop adds to the history is ["📍 " ++ m] for a non-empty
    message [m] of some polled response. *)
Theorem poll_history_nonempty_messages (poll : nat -> PollResp) (url : string) :
  forall k a ls ups log,
    collect_step ls ups None = (ls, ups) /\
    collect_step ls ups (Some "") = (ls, ups) /\
    exists ms,
      updates_of (fst (fst (poll_loop poll url k a ls ups log)))
        = app ups (map (fun m => "📍 " ++ m) ms) /\
      Forall (fun m => m <> "" /\
                       exists n sd, poll n = PollOk sd /\ status_message sd = Some m) ms.
Proof.
  intros k. induction k as [|k IH]; intros a ls ups log.
  all: split; [reflexivity|]; split; [reflexivity|]; simpl.
  - exists []. rewrite app_nil_r. auto.
  - destruct (a <? maxAttempts)%nat; [|exists []; rewrite app_nil_r; auto].
    destruct (poll (S a)) as [sd| |m] eqn:Hp; [|exists []; rewrite app_nil_r; auto ..].
    destruct (collect_step_cases ls ups (status_message sd)) as [E|(m & Hm & Hne & _ & E)];
      rewrite E.
    + destruct (String.eqb (status sd) "completed");
        [simpl; exists []; rewrite app_nil_r; auto|].
      destruct (String.eqb (status sd) "failed");
        [simpl; exists []; rewrite app_nil_r; auto|].
      apply IH.
    + assert (Hin : m <> "" /\ exists n sd, poll n = PollOk sd /\ status_message sd = Some m)
        by eauto.
      destruct (String.eqb (status sd) "completed");
        [simpl; exists [m]; auto|].
      destruct (String.eqb (status sd) "failed");
        [simpl; exists [m]; auto|].
      destruct (IH (S a) m (app ups ["📍 " ++ m]) (app log [EvSleep 5000; EvGet url]))
        as (_ & _ & ms & Hms & Hf).
      exists (m :: ms). rewrite Hms, <- app_assoc. auto.
Qed.

(** C8 (code defect): on the timeout path the accumulated history is lost.
    Under a service that always answers [pending] with message
    ["Working"], the loop's history holds ["📍 Working"], but the handler
    throws the timeout error and its [catch] block returns only the
    classified error text, without that history. *)
Lemma processPurchase_timeout_drops_history :
  In "📍 Working"
     (updates_of (fst (fst (poll_loop (svc (always_pending_env (Some "Working")))
                                      (statusUrl "pid1") maxAttempts 0 ""
                                      ["🔄 Purchase initiated with ID: pid1"]
                                      [EvPost "tok_1234567890" [sample_item] 1999]))))
  /\
  match processPurchase (always_pending_env (Some "Working"))
          (sample_state (Some "tok_1234567890")) with
  | (Returned msg, _, _) => includes msg "Working" = false
  | (Rejected _, _, _) => False
  end.
Proof. vm_compute. split; [auto|reflexivity]. Qed.

(* ------------------------------------------------------------------ *)
(** ** Wallet storage *)

Lemma string_app_cancel (p a b : string) : p ++ a = p ++ b -> a = b.
Proof. induction p as [|c p IH]; simpl; [auto|]. intros H. injection H. auto. Qed.

Lemma getItem_removeItem k k' s :
  WalletState.getItem k' (WalletState.removeItem k s)
  = if String.eqb k' k then None else WalletState.getItem k' s.
Proof.
  unfold WalletState.removeItem.
  induction s as [|[k0 v] s IH]; simpl.
  - destruct (String.eqb k' k); reflexivity.
  - destruct (String.eqb k k0) eqn:E0; simpl.
    + apply String.eqb_eq in E0. subst k0. rewrite IH.
      destruct (String.eqb k' k); reflexivity.
    + rewrite IH. destruct (String.eqb k' k) eqn:E1; [|reflexivity].
      apply String.eqb_eq in E1. subst k'. rewrite E0. reflexivity.
Qed.

Lemma getItem_setItem k k' v s :
  WalletState.getItem k' (WalletState.setItem k v s)
  = if String.eqb k' k then Some v else WalletState.getItem k' s.
Proof.
  unfold WalletState.setItem. simpl. rewrite getItem_removeItem.
  destruct (String.eqb k' k); reflexivity.
Qed.

Lemma wallet_key_eqb u v :
  String.eqb (WalletState.getUserWalletKey v) (WalletState.getUserWalletKey u)
  = String.eqb v u.
Proof.
  destruct (String.eqb v u) eqn:E.
  - apply String.eqb_eq in E. subst. apply String.eqb_refl.
  - apply String.eqb_neq. intros H. apply string_app_cancel in H.
    apply String.eqb_neq in E. auto.
Qed.

(** X1: per-user wallet round trip: after [saveWalletToken(u, t)],
    [getWalletToken(u)] is [t]; after [clearWalletToken(u)] it is [null]
    and [hasWalletToken(u)] is false. *)
Theorem wallet_save_get_clear (u t : string) (s : WalletState.Storage) :
  WalletState.getWalletToken true u (WalletState.saveWalletToken true u t s) = Some t /\
  WalletState.getWalletToken true u (WalletState.clearWalletToken true u s) = None /\
  WalletState.hasWalletToken true u (WalletState.clearWalletToken true u s) = false.
Proof.
  unfold WalletState.hasWalletToken, WalletState.getWalletToken,
    WalletState.saveWalletToken, WalletState.clearWalletToken.
  rewrite getItem_setItem, getItem_removeItem, String.eqb_refl. auto.
Qed.

(** X2: wallet slots are per user: saving or clearing the token of user
    [u] leaves what [getWalletToken] returns for any other user [v]. *)
Theorem wallet_users_isolated (window : bool) (u v t : string) (s : WalletState.Storage)
  (Huv : u <> v) :
  WalletState.getWalletToken window v (WalletState.saveWalletToken window u t s)
    = WalletState.getWalletToken window v s /\
  WalletState.getWalletToken window v (WalletState.clearWalletToken window u s)
    = WalletState.getWalletToken window v s.
Proof.
  unfold WalletState.getWalletToken, WalletState.saveWalletToken,
    WalletState.clearWalletToken.
  destruct window; [|auto].
  rewrite getItem_setItem, getItem_removeItem, wallet_key_eqb.
  assert (E : String.eqb v u = false) by (apply String.eqb_neq; congruence).
  rewrite E. auto.
Qed.

Lemma wallet_users_isolated_witness :
  WalletState.getWalletToken true "bob"
    (WalletState.saveWalletToken true "alice" "tok_alice_123" [("nekuda_wallet_token_bob", "tok_bob_4567")])
    = Some "tok_bob_4567" /\
  WalletState.getWalletToken true "bob"
    (WalletState.clearWalletToken true "alice" [("nekuda_wallet_token_bob", "tok_bob_4567")])
    = Some "tok_bob_4567".
Proof.
  exact (wallet_users_isolated true "alice" "bob" "tok_alice_123"
           [("nekuda_wallet_token_bob", "tok_bob_4567")] ltac:(discriminate)).
Defined.

(** X3: [checkAndSaveExistingCards] with a non-empty card list stores, for
    that user, the id of the first card marked default, or of the first
    card when none is; with an empty list, [null] or a failed request it
    leaves storage as it is. *)
Theorem checkAndSaveExistingCards_stores (u : string) (cards : list WalletState.Card)
  (resp : WalletState.CardsResp) (s : WalletState.Storage) :
  (forall c0 rest, cards = c0 :: rest ->
     WalletState.getWalletToken true u
       (WalletState.checkAndSaveExistingCards true u (WalletState.CardsList cards) s)
     = Some (WalletState.card_id
               (match find WalletState.isDefault cards with Some c => c | None => c0 end)))
  /\
  ((resp = WalletState.CardsList [] \/ resp = WalletState.CardsNull \/
    resp = WalletState.CardsThrow) ->
   WalletState.checkAndSaveExistingCards true u resp s = s).
Proof.
  split.
  - intros c0 rest ->. unfold WalletState.checkAndSaveExistingCards.
    unfold WalletState.getWalletToken, WalletState.saveWalletToken.
    rewrite getItem_setItem, String.eqb_refl. reflexivity.
  - intros [-> | [-> | ->]]; reflexivity.
Qed.

Lemma checkAndSaveExistingCards_stores_witness :
  WalletState.getWalletToken true "u1"
    (WalletState.checkAndSaveExistingCards true "u1"
       (WalletState.CardsList [WalletState.mkCard "card_a" false;
                               WalletState.mkCard "card_b" true]) [])
  = Some "card_b".
Proof.
  exact (proj1 (checkAndSaveExistingCards_stores "u1"
                  [WalletState.mkCard "card_a" false; WalletState.mkCard "card_b" true]
                  WalletState.CardsNull [])
               (WalletState.mkCard "card_a" false) [WalletState.mkCard "card_b" true] eq_refl).
Defined.

(** X4: the session-storage wallet ([part_010]): a later save overwrites an
    earlier one, [getWalletToken] returns the last saved token, and after
    [clearWalletToken] [hasWalletToken] is false. Without a [window],
    saving and clearing leave the storage as it is and no token is read. *)
Theorem session_wallet_roundtrip (t1 t2 : string) (s : WalletState.Storage) :
  SessionWallet.getWalletToken true
    (SessionWallet.saveWalletToken true t2 (SessionWallet.saveWalletToken true t1 s))
    = Some t2 /\
  SessionWallet.hasWalletToken true (SessionWallet.clearWalletToken true s) = false /\
  SessionWallet.saveWalletToken false t1 s = s /\
  SessionWallet.clearWalletToken false s = s /\
  SessionWallet.getWalletToken false s = None.
Proof.
  unfold SessionWallet.hasWalletToken, SessionWallet.getWalletToken,
    SessionWallet.saveWalletToken, SessionWallet.clearWalletToken.
  rewrite getItem_setItem, getItem_removeItem, String.eqb_refl. auto.
Qed.

(* ------------------------------------------------------------------ *)
(** ** Cart actions *)

Lemma NoDup_snoc {A : Type} (l : list A) (x : A) :
  NoDup l -> ~ In x l -> NoDup (app l [x]).
Proof.
  induction l as [|a l IH]; simpl; intros Hnd Hin.
  - constructor; [auto|constructor].
  - inversion Hnd as [|? ? Ha Hl]; subst. constructor.
    + rewrite in_app_iff. simpl. intros [H|[H|H]]; auto.
    + apply IH; auto.
Qed.

Lemma existsb_id_false pid (cart : list Cart.CartItem) :
  existsb (fun item => String.eqb (Cart.id item) pid) cart = false ->
  ~ In pid (map Cart.id cart).
Proof.
  induction cart as [|it cart IH]; simpl; [auto|].
  rewrite orb_false_iff. intros [H1 H2] [H|H].
  - subst. rewrite String.eqb_refl in H1. discriminate.
  - exact (IH H2 H).
Qed.

Lemma map_id_update pid (f : Cart.CartItem -> Cart.CartItem) cart :
  (forall it, Cart.id (f it) = Cart.id it) ->
  map Cart.id (map (fun item => if String.eqb (Cart.id item) pid then f item else item) cart)
  = map Cart.id cart.
Proof.
  intros Hf. rewrite map_map. apply map_ext. intros it.
  destruct (String.eqb (Cart.id it) pid); auto.
Qed.

(** X5: [addToCart] never creates a second line for a product already in
    the cart: if the cart's product ids are distinct, they still are after
    the call. *)
Theorem addToCart_ids_unique loading error products pid quantity_arg cart
  (Hnd : NoDup (map Cart.id cart)) :
  NoDup (map Cart.id (snd (Cart.addToCart loading error products pid quantity_arg cart))).
Proof.
  unfold Cart.addToCart.
  destruct loading; [exact Hnd|].
  assert (Hadd : NoDup (map Cart.id (snd
    (match find (fun p => String.eqb (Cart.product_id p) pid) products with
     | None => ("Product " ++ pid ++ " not found. Available products: "
                ++ join ", " (map Cart.product_id products), cart)
     | Some product =>
         let q := match quantity_arg with Some q => q | None => 1%Z end in
         ("Added " ++ Z_to_string q ++ "x " ++ Cart.product_name product ++ " to cart!",
          if existsb (fun item => String.eqb (Cart.id item) pid) cart then
            map (fun item => if String.eqb (Cart.id item) pid
                             then Cart.with_quantity item (Cart.quantity item + q) else item) cart
          else app cart [Cart.mkCartItem (Cart.product_id product) (Cart.product_name product)
                           (Cart.product_price product) (if Z.eqb q 0 then 1 else q)])
     end)))).
  { destruct (find _ products) as [p|] eqn:Ep; simpl; [|exact Hnd].
    destruct (existsb _ cart) eqn:Ex.
    - rewrite map_id_update; [exact Hnd|reflexivity].
    - apply find_some in Ep as [_ Ep]. apply String.eqb_eq in Ep.
      rewrite map_app. simpl. rewrite Ep.
      apply NoDup_snoc; [exact Hnd|]. exact (existsb_id_false pid cart Ex). }
  destruct error as [e|]; [destruct (String.eqb e "")|]; simpl; try exact Hnd;
    exact Hadd.
Qed.

Lemma addToCart_ids_unique_witness :
  NoDup (map Cart.id (snd (Cart.addToCart false None
    [Cart.mkProduct "NK-001" "Mug" 1299] "NK-001" (Some 2%Z)
    [Cart.mkCartItem "NK-001" "Mug" 1299 1; Cart.mkCartItem "NK-002" "Cap" 999 1]))).
Proof.
  apply addToCart_ids_unique. vm_compute. repeat constructor; simpl; intuition discriminate.
Defined.

Lemma find_app_none {A : Type} (f : A -> bool) (l : list A) (x : A) :
  existsb f l = false -> find f (app l [x]) = if f x then Some x else None.
Proof.
  induction l as [|a l IH]; simpl; [auto|].
  rewrite orb_false_iff. intros [H1 H2]. rewrite H1. auto.
Qed.

Lemma filter_all_other pid (cart : list Cart.CartItem) :
  existsb (fun item => String.eqb (Cart.id item) pid) cart = false ->
  filter (fun item => negb (String.eqb (Cart.id item) pid)) cart = cart.
Proof.
  induction cart as [|it cart IH]; simpl; [auto|].
  rewrite orb_false_iff. intros [H1 H2]. rewrite H1. simpl. f_equal. auto.
Qed.

(** Running [addToCart] past its loading/error guards. *)
Lemma addToCart_ready products pid quantity_arg cart :
  Cart.addToCart false None products pid quantity_arg cart =
  let q := match quantity_arg with Some q => q | None => 1%Z end in
  match find (fun p => String.eqb (Cart.product_id p) pid) products with
  | None => ("Product " ++ pid ++ " not found. Available products: "
             ++ join ", " (map Cart.product_id products), cart)
  | Some product =>
      ("Added " ++ Z_to_string q ++ "x " ++ Cart.product_name product ++ " to cart!",
       if existsb (fun item => String.eqb (Cart.id item) pid) cart then
         map (fun item => if String.eqb (Cart.id item) pid
                          then Cart.with_quantity item (Cart.quantity item + q) else item) cart
       else app cart [Cart.mkCartItem (Cart.product_id product) (Cart.product_name product)
                        (Cart.product_price product) (if Z.eqb q 0 then 1 else q)])
  end.
Proof. reflexivity. Qed.

(** X6: adding a catalogue product that is not yet in the cart and then
    removing it (no quantity given) gives back the original cart. *)
Theorem add_then_remove_new products pid quantity_arg cart p
  (Hp : find (fun p => String.eqb (Cart.product_id p) pid) products = Some p)
  (Hnew : existsb (fun item => String.eqb (Cart.id item) pid) cart = false) :
  snd (Cart.removeFromCart pid None
         (snd (Cart.addToCart false None products pid quantity_arg cart))) = cart.
Proof.
  rewrite addToCart_ready. simpl. rewrite Hp, Hnew. simpl.
  pose proof (find_some _ _ Hp) as [_ Hpid]. apply String.eqb_eq in Hpid.
  unfold Cart.removeFromCart.
  rewrite find_app_none by exact Hnew. simpl. rewrite Hpid, String.eqb_refl. simpl.
  rewrite filter_app, filter_all_other by exact Hnew. simpl.
  rewrite String.eqb_refl. simpl. apply app_nil_r.
Qed.

Lemma add_then_remove_new_witness :
  snd (Cart.removeFromCart "NK-001" None
         (snd (Cart.addToCart false None [Cart.mkProduct "NK-001" "Mug" 1299] "NK-001"
                 (Some 3%Z) [Cart.mkCartItem "NK-002" "Cap" 999 1])))
  = [Cart.mkCartItem "NK-002" "Cap" 999 1].
Proof.
  exact (add_then_remove_new [Cart.mkProduct "NK-001" "Mug" 1299] "NK-001" (Some 3%Z)
           [Cart.mkCartItem "NK-002" "Cap" 999 1] (Cart.mkProduct "NK-001" "Mug" 1299)
           eq_refl eq_refl).
Defined.

Lemma find_map_update pid (f : Cart.CartItem -> Cart.CartItem) cart it :
  (forall x, Cart.id (f x) = Cart.id x) ->
  find (fun item => String.eqb (Cart.id item) pid) cart = Some it ->
  find (fun item => String.eqb (Cart.id item) pid)
       (map (fun item => if String.eqb (Cart.id item) pid then f item else item) cart)
  = Some (f it).
Proof.
  intros Hf. induction cart as [|x cart IH]; simpl; [discriminate|].
  destruct (String.eqb (Cart.id x) pid) eqn:E.
  - intros H; injection H as <-. rewrite Hf, E. reflexivity.
  - rewrite E. exact IH.
Qed.

(** X7: with integer quantities, adding [q > 0] units of a product already
    in the cart (with a positive quantity) and then removing [q] units of it
    gives back the original cart, as long as every quantity of the cart
    plus [q] stays within [2^53] (the range where JavaScript numbers add
    and subtract integers exactly). *)
Theorem add_then_remove_existing products pid q cart p it
  (Hp : find (fun p => String.eqb (Cart.product_id p) pid) products = Some p)
  (Hit : find (fun item => String.eqb (Cart.id item) pid) cart = Some it)
  (Hpos : (0 < Cart.quantity it)%Z) (Hq : (0 < q)%Z)
  (Hsafe : Forall (fun item => (Z.abs (Cart.quantity item) + q <= 2 ^ 53)%Z) cart) :
  snd (Cart.removeFromCart pid (Some q)
         (snd (Cart.addToCart false None products pid (Some q) cart))) = cart.
Proof.
  rewrite addToCart_ready. simpl. rewrite Hp.
  assert (Hex : existsb (fun item => String.eqb (Cart.id item) pid) cart = true).
  { apply existsb_exists. exists it. split; [exact (proj1 (find_some _ _ Hit))|].
    exact (proj2 (find_some _ _ Hit)). }
  rewrite Hex. simpl. unfold Cart.removeFromCart.
  rewrite (find_map_update pid (fun item => Cart.with_quantity item (Cart.quantity item + q))
             cart it (fun x => eq_refl) Hit).
  simpl.
  assert (Hlt : (Cart.quantity it + q <=? q)%Z = false) by (apply Z.leb_gt; lia).
  rewrite Hlt. simpl. rewrite map_map.
  transitivity (map (fun x => x) cart); [|apply map_id].
  apply map_ext. intros [i n pr qu]. simpl.
  destruct (String.eqb i pid) eqn:E; simpl; rewrite E; [|reflexivity].
  unfold Cart.with_quantity. simpl. f_equal. lia.
Qed.

Lemma add_then_remove_existing_witness :
  snd (Cart.removeFromCart "NK-001" (Some 2%Z)
         (snd (Cart.addToCart false None [Cart.mkProduct "NK-001" "Mug" 1299] "NK-001"
                 (Some 2%Z) [Cart.mkCartItem "NK-001" "Mug" 1299 1])))
  = [Cart.mkCartItem "NK-001" "Mug" 1299 1].
Proof.
  refine (add_then_remove_existing [Cart.mkProduct "NK-001" "Mug" 1299] "NK-001" 2
            [Cart.mkCartItem "NK-001" "Mug" 1299 1] (Cart.mkProduct "NK-001" "Mug" 1299)
            (Cart.mkCartItem "NK-001" "Mug" 1299 1) eq_refl eq_refl _ _ _);
    [simpl; lia | lia | repeat constructor; simpl; lia].
Defined.

(** X8: [removeFromCart] without a quantity, or with one at least the
    quantity of the product's line, removes every line of that product and
    keeps all other lines in order. *)
Theorem removeFromCart_all pid quantity_arg cart it
  (Hit : find (fun item => String.eqb (Cart.id item) pid) cart = Some it)
  (Hq : match quantity_arg with None => True | Some q => (Cart.quantity it <= q)%Z end) :
  snd (Cart.removeFromCart pid quantity_arg cart)
    = filter (fun item => negb (String.eqb (Cart.id item) pid)) cart /\
  ~ In pid (map Cart.id (snd (Cart.removeFromCart pid quantity_arg cart))).
Proof.
  assert (Hr : snd (Cart.removeFromCart pid quantity_arg cart)
               = filter (fun item => negb (String.eqb (Cart.id item) pid)) cart).
  { unfold Cart.removeFromCart. rewrite Hit.
    destruct quantity_arg as [q|]; simpl; [|reflexivity].
    apply Z.leb_le in Hq. rewrite Hq. reflexivity. }
  split; [exact Hr|]. rewrite Hr. intros Hin.
  apply in_map_iff in Hin as (x & Hx & Hin). apply filter_In in Hin as [_ Hn].
  rewrite Hx, String.eqb_refl in Hn. discriminate.
Qed.

Lemma removeFromCart_all_witness :
  snd (Cart.removeFromCart "NK-001" (Some 5%Z)
         [Cart.mkCartItem "NK-001" "Mug" 1299 2; Cart.mkCartItem "NK-002" "Cap" 999 1])
    = [Cart.mkCartItem "NK-002" "Cap" 999 1] /\
  ~ In "NK-001" (map Cart.id (snd (Cart.removeFromCart "NK-001" (Some 5%Z)
         [Cart.mkCartItem "NK-001" "Mug" 1299 2; Cart.mkCartItem "NK-002" "Cap" 999 1]))).
Proof.
  refine (removeFromCart_all "NK-001" (Some 5%Z)
            [Cart.mkCartItem "NK-001" "Mug" 1299 2; Cart.mkCartItem "NK-002" "Cap" 999 1]
            (Cart.mkCartItem "NK-001" "Mug" 1299 2) eq_refl _). simpl. lia.
Defined.

(* ------------------------------------------------------------------ *)
(** ** Error texts *)

Lemma prefixb_app (n r : string) : prefixb n (n ++ r) = true.
Proof. induction n as [|a n IH]; simpl; [reflexivity|]. rewrite Ascii.eqb_refl. exact IH. Qed.

Lemma includes_app_l (p s n : string) : includes s n = true -> includes (p ++ s) n = true.
Proof.
  induction p as [|a p IH]; simpl; [auto|]. intros H. rewrite (IH H). apply orb_true_r.
Qed.

Lemma includes_prefix (m r : string) : includes (m ++ r) m = true.
Proof. destruct m as [|a m]; simpl; [destruct r; reflexivity|]. rewrite Ascii.eqb_refl, prefixb_app. reflexivity. Qed.

(** X9: whatever the error, the text shown by [getErrorMessage] quotes the
    error's [message] and tells the user that the cart has been preserved. *)
Theorem getErrorMessage_mentions (e : PurchaseError) :
  includes (getErrorMessage e) (message e) = true /\
  includes (getErrorMessage e) "Your cart has been preserved" = true.
Proof.
  unfold getErrorMessage. destruct (type e); split;
    apply includes_app_l; (apply includes_prefix || (apply includes_app_l; reflexivity)).
Qed.

(** X10: the history line [formatErrorForHistory] builds for a classified
    error ends with the raw text the error was classified from, or with
    ["No details"] when that text is empty. *)
Theorem formatErrorForHistory_classified (v : JsVal) (e : PurchaseError) (em ts : string)
  (Hc : classifyError v = Some e) (Hm : extractMessage v = JStr em) :
  formatErrorForHistory ts e =
    "❌ Failed Order (" ++ ts ++ "): " ++ message e ++ " - "
    ++ (if String.eqb em "" then "No details" else em).
Proof.
  unfold classifyError in Hc. rewrite Hm in Hc. injection Hc as <-.
  unfold formatErrorForHistory, or_default.
  assert (Hd : details (classifyLower em (toLowerCase em)) = Some em).
  { unfold classifyLower;
      repeat match goal with |- context [if ?c then _ else _] => destruct c end;
      reflexivity. }
  rewrite Hd. reflexivity.
Qed.

Lemma formatErrorForHistory_classified_witness :
  formatErrorForHistory "10:00:00"
    (mkPurchaseError Network "Cannot connect to checkout service" (Some "Failed to fetch") true)
  = "❌ Failed Order (10:00:00): Cannot connect to checkout service - Failed to fetch".
Proof.
  exact (formatErrorForHistory_classified (JError "Failed to fetch")
           (mkPurchaseError Network "Cannot connect to checkout service" (Some "Failed to fetch") true)
           "Failed to fetch" "10:00:00" eq_refl eq_refl).
Defined.

(* ------------------------------------------------------------------ *)
(** ** What [processPurchase] sends and keeps *)

Lemma pollEvents_S url j :
  pollEvents url (S j) = app [EvSleep 5000; EvGet url] (pollEvents url j).
Proof. reflexivity. Qed.

Lemma poll_loop_log poll url : forall k a ls ups log,
  exists j, (j <= k)%nat /\
    snd (poll_loop poll url k a ls ups log) = app log (pollEvents url j).
Proof.
  induction k as [|k IH]; intros a ls ups log; simpl.
  - exists 0%nat. rewrite app_nil_r. auto.
  - destruct (a <? maxAttempts)%nat; [|exists 0%nat; rewrite app_nil_r; split; [lia|reflexivity]].
    destruct (poll (S a)) as [sd| |m];
      [|exists 1%nat; split; [lia|reflexivity] ..].
    destruct (collect_step ls ups (status_message sd)) as [ls' ups'].
    destruct (String.eqb (status sd) "completed"); [exists 1%nat; split; [lia|reflexivity]|].
    destruct (String.eqb (status sd) "failed"); [exists 1%nat; split; [lia|reflexivity]|].
    destruct (IH (S a) ls' ups' (app log [EvSleep 5000; EvGet url])) as (j & Hj & Hl).
    exists (S j). split; [lia|]. rewrite Hl, pollEvents_S, app_assoc. reflexivity.
Qed.

Lemma try_block_log env st token :
  (snd (try_block env st token) = [EvPost token (cartItems st) (total st)] /\
   forall pid, submit env <> SubmitOk pid) \/
  exists pid n, submit env = SubmitOk pid /\ (n <= maxAttempts)%nat /\
    snd (try_block env st token)
      = EvPost token (cartItems st) (total st) :: pollEvents (statusUrl pid) n.
Proof.
  unfold try_block. destruct (submit env) as [pid|d|m] eqn:Es;
    [|left; split; [reflexivity|intros p; discriminate] ..].
  right. exists pid.
  destruct (poll_loop_log (svc env) (statusUrl pid) maxAttempts 0 ""
              ["🔄 Purchase initiated with ID: " ++ pid] [EvPost token (cartItems st) (total st)])
    as (j & Hj & Hl).
  exists j. split; [reflexivity|]. split; [exact Hj|].
  destruct (poll_loop (svc env) (statusUrl pid) maxAttempts 0 "" _ _) as [[out a'] l'].
  simpl in Hl. destruct out; [|destruct (classifyError (status_to_js sd))| |]; exact Hl.
Qed.

(** X11: the handler's traffic. It sends nothing when the cart is empty or
    no usable token is found; otherwise it sends exactly one checkout POST,
    carrying the token [paymentToken || wallet token], the cart and the
    total, followed, only if the checkout answered with a purchase id, by
    at most [maxAttempts] status GETs on that id, each after a 5000 ms
    sleep. *)
Theorem processPurchase_log (env : Env) (st : St) :
  (snd (processPurchase env st) = [] /\
   (cartItems st = [] \/ hasValidToken (opt_or (paymentToken st) (wallet st)) = false))
  \/
  exists token, opt_or (paymentToken st) (wallet st) = Some token /\
    cartItems st <> [] /\ hasValidToken (Some token) = true /\
    ((snd (processPurchase env st) = [EvPost token (cartItems st) (total st)] /\
      forall pid, submit env <> SubmitOk pid) \/
     exists pid n, submit env = SubmitOk pid /\ (n <= maxAttempts)%nat /\
       snd (processPurchase env st)
         = EvPost token (cartItems st) (total st) :: pollEvents (statusUrl pid) n).
Proof.
  destruct (cartItems st) as [|i l] eqn:Ec.
  { left. unfold processPurchase. rewrite Ec. auto. }
  rewrite <- Ec.
  destruct (hasValidToken (opt_or (paymentToken st) (wallet st))) eqn:Hv.
  - right. assert (Hne : cartItems st <> []) by congruence.
    destruct (processPurchase_enters_try env st Hne Hv) as (token & Ht & Hp).
    exists token. rewrite <- Ht. split; [reflexivity|]. split; [exact Hne|]. split; [exact Hv|].
    rewrite Hp.
    destruct (try_block_log env st token) as [[Hl Hs]|(pid & n & Hs & Hn & Hl)];
      destruct (try_block env st token) as [out log]; simpl in Hl;
      destruct out as [msg st'|err]; try destruct (classifyError err); simpl; eauto 7.
  - left. unfold processPurchase. rewrite Ec.
    destruct (opt_or (paymentToken st) (wallet st)) as [t|]; [|auto].
    simpl in Hv.
    destruct (String.eqb t ""), (String.eqb t "token_placeholder"); simpl in *;
      try discriminate; auto.
Qed.

(** X12: when the checkout request fails (HTTP error or a thrown fetch), the
    handler has sent only that request, keeps the cart and the tokens,
    records a recoverable error and returns to [shopping] with the error
    text. A thrown message containing "fetch" (as in
    [TypeError: Failed to fetch]) is reported as a [Network] error; an
    HTTP error without [detail] is reported as [Unknown] with the detail
    "Checkout failed". *)
Theorem processPurchase_submit_fails (env : Env) (st : St) (token : string)
  (Hcart : cartItems st <> [])
  (Ht : opt_or (paymentToken st) (wallet st) = Some token)
  (Hv : hasValidToken (Some token) = true)
  (Hs : forall pid, submit env <> SubmitOk pid) :
  exists e,
    processPurchase env st =
      (Returned (getErrorMessage e), setStage shopping (setLastError e st),
       [EvPost token (cartItems st) (total st)]) /\
    recoverable e = true /\
    (forall m, submit env = SubmitThrow m -> includes (toLowerCase m) "fetch" = true ->
               type e = Network) /\
    (submit env = SubmitHttpError None -> type e = Unknown /\ details e = Some "Checkout failed").
Proof.
  assert (Hvt : hasValidToken (opt_or (paymentToken st) (wallet st)) = true) by (rewrite Ht; exact Hv).
  destruct (processPurchase_enters_try env st Hcart Hvt) as (token' & Ht' & Hp).
  rewrite Ht in Ht'. injection Ht' as <-. rewrite Hp. unfold try_block.
  destruct (submit env) as [pid|d|m] eqn:Es; [destruct (Hs pid eq_refl)| |].
  - destruct (catch_JError st (or_default d "Checkout failed") [EvPost token (cartItems st) (total st)])
      as (e & He & Hr).
    exists e. rewrite He. split; [reflexivity|]. split; [exact Hr|]. split.
    + intros m' Hm. discriminate.
    + intros Hd. injection Hd as ->.
      assert (Hc : classifyError (JError "Checkout failed")
                   = Some (mkPurchaseError Unknown "An unexpected error occurred"
                                           (Some "Checkout failed") true)) by reflexivity.
      change (or_default None "Checkout failed") with "Checkout failed" in He.
      rewrite Hc in He. apply (f_equal (fun x => lastError (snd (fst x)))) in He.
      simpl in He. injection He as <-. split; reflexivity.
  - destruct (catch_JError st m [EvPost token (cartItems st) (total st)]) as (e & He & Hr).
    exists e. rewrite He. split; [reflexivity|]. split; [exact Hr|]. split; [|discriminate].
    intros m' Hm Hf. injection Hm as <-.
    destruct m as [|c m]; [discriminate|].
    assert (Hc : classifyError (JError (String c m))
                 = Some (classifyLower (String c m) (toLowerCase (String c m)))) by reflexivity.
    rewrite Hc in He. apply (f_equal (fun x => lastError (snd (fst x)))) in He.
    cbn [lastError snd fst setStage setLastError] in He.
    injection He as He. subst e. unfold classifyLower. simpl toLowerCase in Hf. rewrite Hf. reflexivity.
Qed.

Lemma processPurchase_submit_fails_witness :
  exists e,
    processPurchase (mkEnv (SubmitThrow "Failed to fetch") (fun _ => PollHttpError) 0)
                    (sample_state (Some "tok_1234567890")) =
      (Returned (getErrorMessage e),
       setStage shopping (setLastError e (sample_state (Some "tok_1234567890"))),
       [EvPost "tok_1234567890" [sample_item] 1999]) /\
    recoverable e = true /\
    (forall m, SubmitThrow "Failed to fetch" = SubmitThrow m ->
               includes (toLowerCase m) "fetch" = true -> type e = Network) /\
    (SubmitThrow "Failed to fetch" = SubmitHttpError None ->
     type e = Unknown /\ details e = Some "Checkout failed").
Proof.
  apply (processPurchase_submit_fails (mkEnv (SubmitThrow "Failed to fetch") (fun _ => PollHttpError) 0)
           (sample_state (Some "tok_1234567890")) "tok_1234567890").
  - simpl. discriminate.
  - reflexivity.
  - reflexivity.
  - intros pid. discriminate.
Defined.

Lemma classifyError_status_some (sd : StatusData) :
  exists e, classifyError (status_to_js sd) = Some e.
Proof.
  unfold classifyError, extractMessage, js_or, status_to_js.
  destruct (status_message sd), (status_result sd), (status_error sd); simpl;
    repeat match goal with |- context [if ?c then _ else _] => destruct c end; eauto.
Qed.

Lemma collect_from_app poll : forall k i ls ups,
  exists more, collect_from poll i k ls ups = app ups more.
Proof.
  induction k as [|k IH]; intros i ls ups; simpl.
  - exists []. rewrite app_nil_r. reflexivity.
  - set (msg := match poll i with PollOk sd => status_message sd | _ => None end).
    destruct (collect_step_cases ls ups msg) as [E|(m & _ & _ & _ & E)]; rewrite E.
    + apply IH.
    + destruct (IH (S i) m (app ups ["📍 " ++ m])) as [more Hm].
      rewrite Hm, <- app_assoc. eauto.
Qed.

Lemma poll_loop_fails poll url sd n :
  status sd = "failed" -> poll n = PollOk sd ->
  (forall m, (1 <= m < n)%nat -> nonterminal (poll m)) ->
  forall k a ls ups log, a + k = maxAttempts -> (a < n <= maxAttempts)%nat ->
  poll_loop poll url k a ls ups log
  = (LoopFailed sd (collect_from poll (S a) (n - a) ls ups), n,
     app log (pollEvents url (n - a))).
Proof.
  intros Hf Hn Hpre. induction k as [|k IH]; intros a ls ups log Hk Han; simpl.
  - lia.
  - assert (Ha : (a <? maxAttempts)%nat = true) by (apply Nat.ltb_lt; lia).
    rewrite Ha.
    destruct (Nat.eq_dec (S a) n) as [<-|Hne].
    + replace (S a - a)%nat with 1%nat by lia. simpl collect_from. rewrite Hn.
      destruct (collect_step ls ups (status_message sd)) as [ls' ups'].
      rewrite Hf. reflexivity.
    + destruct (Hpre (S a)) as (sd' & Hp & Hc' & Hf'); [lia|].
      replace (n - a)%nat with (S (n - S a)) by lia. simpl collect_from. rewrite Hp.
      destruct (collect_step ls ups (status_message sd')) as [ls' ups'].
      apply String.eqb_neq in Hc', Hf'. rewrite Hc', Hf'.
      rewrite (IH (S a) ls' ups' (app log [EvSleep 5000; EvGet url])) by lia.
      rewrite <- app_assoc. reflexivity.
Qed.

(** X13: when the [n]-th status poll is the first terminal one and reports
    [failed], the handler records the classified error (recoverable),
    returns to [shopping] keeping the cart and the tokens, and answers with
    the status history (the "Purchase initiated" line first) joined by
    newlines, a blank line, then the error text; the history is the one
    the loop collected from the messages of polls [1..n] ([collect_from]).
    It has sent the checkout POST and [n] status GETs. *)
Theorem processPurchase_failed_status (env : Env) (st : St) (token pid : string)
  (n : nat) (sd : StatusData)
  (Hcart : cartItems st <> [])
  (Ht : opt_or (paymentToken st) (wallet st) = Some token)
  (Hv : hasValidToken (Some token) = true)
  (Hsub : submit env = SubmitOk pid)
  (Hpre : forall m, (1 <= m < n)%nat -> nonterminal (svc env m))
  (Hn : svc env n = PollOk sd) (Hf : status sd = "failed")
  (Hbound : (1 <= n <= maxAttempts)%nat) :
  exists e,
    processPurchase env st =
      (Returned ((join nl (collect_from (svc env) 1 n ""
                             ["🔄 Purchase initiated with ID: " ++ pid]) ++ nl ++ nl)
                 ++ getErrorMessage e),
       setStage shopping (setLastError e st),
       EvPost token (cartItems st) (total st) :: pollEvents (statusUrl pid) n) /\
    classifyError (status_to_js sd) = Some e /\ recoverable e = true.
Proof.
  assert (Hvt : hasValidToken (opt_or (paymentToken st) (wallet st)) = true) by (rewrite Ht; exact Hv).
  destruct (processPurchase_enters_try env st Hcart Hvt) as (token' & Ht' & Hp).
  rewrite Ht in Ht'. injection Ht' as <-. rewrite Hp. unfold try_block. rewrite Hsub.
  rewrite (poll_loop_fails (svc env) (statusUrl pid) sd n Hf Hn Hpre maxAttempts 0 ""
              ["🔄 Purchase initiated with ID: " ++ pid] [EvPost token (cartItems st) (total st)])
    by lia.
  destruct (classifyError_status_some sd) as [e He]. rewrite He.
  exists e. rewrite !Nat.sub_0_r.
  destruct (collect_from_app (svc env) n 1 "" ["🔄 Purchase initiated with ID: " ++ pid])
    as [more Hmore].
  assert (Hlen : (0 <? List.length (collect_from (svc env) 1 n ""
                     ["🔄 Purchase initiated with ID: " ++ pid]))%nat = true)
    by (rewrite Hmore; reflexivity).
  cbv beta iota zeta. rewrite Hlen.
  split; [reflexivity|]. split; [reflexivity|]. exact (classifyError_recoverable _ _ He).
Qed.

Lemma processPurchase_failed_status_witness :
  exists e,
    processPurchase fails_at_2_env (sample_state (Some "tok_1234567890")) =
      (Returned ((join nl (collect_from (svc fails_at_2_env) 1 2 ""
                             ["🔄 Purchase initiated with ID: " ++ "pid1"]) ++ nl ++ nl)
                 ++ getErrorMessage e),
       setStage shopping (setLastError e (sample_state (Some "tok_1234567890"))),
       EvPost "tok_1234567890" [sample_item] 1999 :: pollEvents (statusUrl "pid1") 2) /\
    classifyError (status_to_js (mkStatusData "failed" (Some "Card declined") None None)) = Some e /\
    recoverable e = true.
Proof.
  apply (processPurchase_failed_status fails_at_2_env (sample_state (Some "tok_1234567890"))
           "tok_1234567890" "pid1" 2 (mkStatusData "failed" (Some "Card declined") None None)).
  - simpl. discriminate.
  - reflexivity.
  - reflexivity.
  - reflexivity.
  - intros m Hm. replace m with 1%nat by lia. eexists. split; [reflexivity|].
    simpl. split; discriminate.
  - reflexivity.
  - reflexivity.
  - unfold maxAttempts. lia.
Defined.

(* ------------------------------------------------------------------ *)
(** ** The status history never repeats a line *)

Lemma no_adjacent_dup_snoc (l : list string) (x : string) :
  no_adjacent_dup l -> (l <> [] -> last l "" <> x) -> no_adjacent_dup (app l [x]).
Proof.
  induction l as [|a l IH]; [simpl; auto|]. intros Hl Hx.
  destruct l as [|b l'].
  - simpl in *. split; [apply Hx; discriminate|exact I].
  - destruct Hl as [Hab Hl]. simpl. split; [exact Hab|].
    apply (IH Hl). intros _. apply Hx. discriminate.
Qed.

Lemma poll_loop_no_adjacent_dup poll url : forall k a ls ups log,
  no_adjacent_dup ups -> ups <> [] ->
  (last ups "" = "📍 " ++ ls \/ forall m, last ups "" <> "📍 " ++ m) ->
  no_adjacent_dup (updates_of (fst (fst (poll_loop poll url k a ls ups log)))).
Proof.
  induction k as [|k IH]; intros a ls ups log Hnd Hne Hlast; simpl; [exact Hnd|].
  destruct (a <? maxAttempts)%nat; [|exact Hnd].
  destruct (poll (S a)) as [sd| |m]; [|exact Hnd|exact Hnd].
  destruct (collect_step_cases ls ups (status_message sd)) as [E|(m & _ & _ & Hls & E)];
    rewrite E.
  - destruct (String.eqb (status sd) "completed"); [exact Hnd|].
    destruct (String.eqb (status sd) "failed"); [exact Hnd|].
    apply IH; assumption.
  - assert (Hnd' : no_adjacent_dup (app ups ["📍 " ++ m])).
    { apply no_adjacent_dup_snoc; [exact Hnd|]. intros _.
      destruct Hlast as [-> | Hall]; [|apply Hall].
      intros Heq. apply string_app_cancel in Heq. congruence. }
    destruct (String.eqb (status sd) "completed"); [exact Hnd'|].
    destruct (String.eqb (status sd) "failed"); [exact Hnd'|].
    apply IH; [exact Hnd'| |].
    + destruct ups; discriminate.
    + left. apply last_last.
Qed.

(** X14: the status history that [processPurchase] builds (starting from
    the "Purchase initiated" line) never holds the same line twice in a
    row, whatever the status service answers: a message is only added when
    it differs from the last one added. *)
Theorem poll_history_no_repeat (poll : nat -> PollResp) (pid : string) (log : list Ev) :
  no_adjacent_dup
    (updates_of (fst (fst (poll_loop poll (statusUrl pid) maxAttempts 0 ""
                                     ["🔄 Purchase initiated with ID: " ++ pid] log)))).
Proof.
  apply poll_loop_no_adjacent_dup; [exact I|discriminate|].
  right. intros m H. simpl in H. discriminate H.
Qed.

(* ------------------------------------------------------------------ *)
(** ** How the stage handlers compose *)

Lemma try_block_return env st token msg st' log :
  try_block env st token = (TryReturn msg st', log) ->
  (exists e, st' = setStage shopping (setLastError e st)) \/
  (exists pid n sd r,
     submit env = SubmitOk pid /\ (1 <= n <= maxAttempts)%nat /\
     (forall m, (1 <= m < n)%nat -> nonterminal (svc env m)) /\
     svc env n = PollOk sd /\ status sd = "completed" /\
     st' = setStage shopping
             (setLastPurchaseResult r
                (clearWalletToken (setPaymentToken None (setCartItems [] st))))).
Proof.
  unfold try_block. destruct (submit env) as [pid|d|m]; try discriminate.
  pose proof (poll_loop_completed_first (svc env) (statusUrl pid) maxAttempts 0 ""
                ["🔄 Purchase initiated with ID: " ++ pid]
                [EvPost token (cartItems st) (total st)]) as Hfirst.
  destruct (poll_loop (svc env) (statusUrl pid) maxAttempts 0 "" _ _) as [[out a'] l'].
  destruct out as [sd u|sd u|err u|u]; try discriminate.
  - intros H. injection H as _ <- _. right.
    destruct (Hfirst sd u a' l' eq_refl) as (Ha & Hp & Hc & Hpre).
    exists pid, a', sd. eexists. split; [reflexivity|]. split; [lia|].
    split; [intros m Hm; apply Hpre; lia|]. auto.
  - destruct (classifyError (status_to_js sd)) as [e|]; [|discriminate].
    intros H. injection H as _ <- _. left. eauto.
Qed.

(** X15: [processPurchase] either leaves the cart, both tokens and the last
    purchase result as they were, or it is a run in which the checkout
    returned a purchase id and the [n]-th status poll, the first terminal
    one, reported [completed]; then it empties the cart, clears both the
    payment token and the wallet token, records a purchase result, keeps
    the last error and returns to [shopping]. *)
Theorem processPurchase_state (env : Env) (st : St) :
  let st' := snd (fst (processPurchase env st)) in
  (paymentToken st' = paymentToken st /\ wallet st' = wallet st /\
   cartItems st' = cartItems st /\ lastPurchaseResult st' = lastPurchaseResult st)
  \/
  (exists pid n sd,
     submit env = SubmitOk pid /\ (1 <= n <= maxAttempts)%nat /\
     (forall m, (1 <= m < n)%nat -> nonterminal (svc env m)) /\
     svc env n = PollOk sd /\ status sd = "completed" /\
     paymentToken st' = None /\ wallet st' = None /\ cartItems st' = [] /\
     stage st' = shopping /\ lastError st' = lastError st /\
     exists r, lastPurchaseResult st' = Some r).
Proof.
  cbv zeta. unfold processPurchase.
  destruct (cartItems st) as [|i l] eqn:Ec; [left; simpl; rewrite Ec; auto|].
  destruct (opt_or (paymentToken st) (wallet st)) as [t|]; [|left; simpl; rewrite Ec; auto].
  destruct (String.eqb t "" || String.eqb t "token_placeholder");
    [left; simpl; rewrite Ec; auto|].
  destruct (try_block env st t) as [[msg st'|err] log] eqn:Etb.
  - apply try_block_return in Etb as [(e & ->)|(pid & n & sd & r & H1 & H2 & H3 & H4 & H5 & ->)].
    + left. simpl. rewrite Ec. auto.
    + right. exists pid, n, sd. simpl. repeat split; try tauto; eauto.
  - destruct (classifyError err); left; simpl; rewrite Ec; auto.
Qed.



(* ------------------------------------------------------------------ *)
(** ** More about the cart actions *)

(** X17: the cart actions leave the cart untouched when they refuse to act:
    [addToCart] while the products are loading, after a loading error, or
    for a product id missing from the catalogue, and [removeFromCart] for a
    product that is not in the cart. *)
Theorem cart_refusals_keep_cart (loading : bool) (error : option string)
  (products : list Cart.Product) (pid : string) (qa : option Z) (cart : list Cart.CartItem) :
  (loading = true -> snd (Cart.addToCart loading error products pid qa cart) = cart) /\
  (forall e, error = Some e -> e <> "" ->
     snd (Cart.addToCart loading error products pid qa cart) = cart) /\
  (find (fun p => String.eqb (Cart.product_id p) pid) products = None ->
     snd (Cart.addToCart loading error products pid qa cart) = cart) /\
  (find (fun item => String.eqb (Cart.id item) pid) cart = None ->
     snd (Cart.removeFromCart pid qa cart) = cart).
Proof.
  unfold Cart.addToCart, Cart.removeFromCart. repeat split.
  - intros ->. reflexivity.
  - intros e -> He. apply String.eqb_neq in He. rewrite He. destruct loading; reflexivity.
  - intros Hf. rewrite Hf.
    destruct loading; [reflexivity|]. destruct error as [e|]; [|reflexivity].
    destruct (String.eqb e ""); reflexivity.
  - intros Hf. rewrite Hf. reflexivity.
Qed.

Lemma cart_refusals_keep_cart_witness :
  snd (Cart.addToCart false (Some "HTTP 500") [] "NK-001" None
         [Cart.mkCartItem "NK-002" "Cap" 999 1]) = [Cart.mkCartItem "NK-002" "Cap" 999 1].
Proof.
  exact (proj1 (proj2 (cart_refusals_keep_cart false (Some "HTTP 500") [] "NK-001" None
           [Cart.mkCartItem "NK-002" "Cap" 999 1])) "HTTP 500" eq_refl ltac:(discriminate)).
Defined.

(** X18: [addToCart] never removes or reorders cart lines: the product ids
    of the new cart are those of the old one, possibly followed by the
    added product's id (when it was not in the cart yet); and for such a
    new product, a requested quantity of 0 adds one unit although the reply
    says "Added 0x". *)
Theorem addToCart_keeps_lines (loading : bool) (error : option string)
  (products : list Cart.Product) (pid : string) (qa : option Z) (cart : list Cart.CartItem) :
  (map Cart.id (snd (Cart.addToCart loading error products pid qa cart)) = map Cart.id cart \/
   map Cart.id (snd (Cart.addToCart loading error products pid qa cart))
     = app (map Cart.id cart) [pid]) /\
  (forall p, find (fun p => String.eqb (Cart.product_id p) pid) products = Some p ->
     existsb (fun item => String.eqb (Cart.id item) pid) cart = false ->
     Cart.addToCart false None products pid (Some 0%Z) cart
       = ("Added 0x " ++ Cart.product_name p ++ " to cart!",
          app cart [Cart.mkCartItem pid (Cart.product_name p) (Cart.product_price p) 1])).
Proof.
  split.
  - assert (Hadd : forall q,
      map Cart.id (snd (match find (fun p => String.eqb (Cart.product_id p) pid) products with
        | None => ("Product " ++ pid ++ " not found. Available products: "
                   ++ join ", " (map Cart.product_id products), cart)
        | Some product =>
            ("Added " ++ Z_to_string q ++ "x " ++ Cart.product_name product ++ " to cart!",
             if existsb (fun item => String.eqb (Cart.id item) pid) cart then
               map (fun item => if String.eqb (Cart.id item) pid
                                then Cart.with_quantity item (Cart.quantity item + q) else item) cart
             else app cart [Cart.mkCartItem (Cart.product_id product) (Cart.product_name product)
                              (Cart.product_price product) (if Z.eqb q 0 then 1 else q)])
        end)) = map Cart.id cart \/
      map Cart.id (snd (match find (fun p => String.eqb (Cart.product_id p) pid) products with
        | None => ("Product " ++ pid ++ " not found. Available products: "
                   ++ join ", " (map Cart.product_id products), cart)
        | Some product =>
            ("Added " ++ Z_to_string q ++ "x " ++ Cart.product_name product ++ " to cart!",
             if existsb (fun item => String.eqb (Cart.id item) pid) cart then
               map (fun item => if String.eqb (Cart.id item) pid
                                then Cart.with_quantity item (Cart.quantity item + q) else item) cart
             else app cart [Cart.mkCartItem (Cart.product_id product) (Cart.product_name product)
                              (Cart.product_price product) (if Z.eqb q 0 then 1 else q)])
        end)) = app (map Cart.id cart) [pid]).
    { intros q. destruct (find _ products) as [p|] eqn:Hp; [|left; reflexivity].
      pose proof (find_some _ _ Hp) as [_ Hpid]. apply String.eqb_eq in Hpid.
      simpl. destruct (existsb _ cart).
      - left. rewrite map_map. apply map_ext. intros it.
        destruct (String.eqb (Cart.id it) pid); reflexivity.
      - right. rewrite map_app. simpl. rewrite Hpid. reflexivity. }
    unfold Cart.addToCart. cbv zeta.
    destruct loading; [left; reflexivity|].
    destruct error as [e|]; [destruct (String.eqb e ""); [apply Hadd|left; reflexivity]|apply Hadd].
  - intros p Hp Hnew. rewrite addToCart_ready. cbv zeta. rewrite Hp, Hnew.
    pose proof (find_some _ _ Hp) as [_ Hpid]. apply String.eqb_eq in Hpid.
    rewrite Hpid. reflexivity.
Qed.

Lemma addToCart_keeps_lines_witness :
  Cart.addToCart false None [Cart.mkProduct "NK-001" "Mug" 1299] "NK-001" (Some 0%Z) []
  = ("Added 0x " ++ "Mug" ++ " to cart!", app [] [Cart.mkCartItem "NK-001" "Mug" 1299 1]).
Proof.
  exact (proj2 (addToCart_keeps_lines false None [Cart.mkProduct "NK-001" "Mug" 1299] "NK-001"
                  (Some 0%Z) []) (Cart.mkProduct "NK-001" "Mug" 1299) eq_refl eq_refl).
Defined.

(* ------------------------------------------------------------------ *)
(** ** Classifying a failed status payload *)

Lemma classifyLower_details em lm : details (classifyLower em lm) = Some em.
Proof.
  unfold classifyLower;
    repeat match goal with |- context [if ?c then _ else _] => destruct c end;
    reflexivity.
Qed.

Lemma extractMessage_status (sd : StatusData) :
  extractMessage (status_to_js sd)
  = JStr (or_default (status_message sd) (or_default (status_error sd) "[object Object]")).
Proof.
  unfold extractMessage, js_or, status_to_js, or_default.
  destruct (status_message sd) as [m|], (status_result sd), (status_error sd) as [x|]; simpl;
    repeat match goal with |- context [String.eqb ?a ""] => destruct (String.eqb a "") end;
    reflexivity.
Qed.

(** X19: classifying a failed status payload never throws; the error's
    details are the payload's [message] if it is a non-empty string, else
    its [error] if non-empty, else the text "[object Object]" (the payload
    converted with [String]). *)
Theorem classifyError_status (sd : StatusData) :
  exists e, classifyError (status_to_js sd) = Some e /\
    details e = Some (or_default (status_message sd)
                        (or_default (status_error sd) "[object Object]")) /\
    recoverable e = true.
Proof.
  unfold classifyError. rewrite extractMessage_status. eexists. split; [reflexivity|].
  split; [apply classifyLower_details|apply classifyLower_recoverable].
Qed.

(* ------------------------------------------------------------------ *)
(** ** Which token the stages look at *)

(** X20: [startCheckout] and [collectPaymentInfo] prefer the wallet token
    ([getWalletToken() || paymentToken]) while [processPurchase] prefers the
    payment token ([paymentToken || getWalletToken()]). With a usable
    payment token and the wallet slot holding ["token_placeholder"],
    checkout asks for payment and the payment stage shows the wallet
    widget, although [processPurchase] would accept the session and send
    its checkout POST with the payment token. *)
Theorem token_precedence_mismatch (env : Env) (st : St) (p : string)
  (Hcart : cartItems st <> [])
  (Hp : paymentToken st = Some p) (Hpv : hasValidToken (Some p) = true)
  (Hw : wallet st = Some "token_placeholder") :
  stage (snd (startCheckout st)) = collectPayment /\
  collectPaymentInfo None st = (WalletWidgetView, None, st) /\
  hd_error (snd (processPurchase env st)) = Some (EvPost p (cartItems st) (total st)).
Proof.
  assert (Hww : opt_or (wallet st) (paymentToken st) = Some "token_placeholder")
    by (rewrite Hw; reflexivity).
  assert (Hpp : opt_or (paymentToken st) (wallet st) = Some p).
  { rewrite Hp. simpl. simpl in Hpv. destruct (String.eqb p ""); [discriminate|reflexivity]. }
  split; [|split].
  - unfold startCheckout. destruct (cartItems st); [congruence|]. rewrite Hww. reflexivity.
  - unfold collectPaymentInfo. rewrite Hww. reflexivity.
  - assert (Hv : hasValidToken (opt_or (paymentToken st) (wallet st)) = true)
      by (rewrite Hpp; exact Hpv).
    destruct (processPurchase_enters_try env st Hcart Hv) as (token & Ht & Hpr).
    rewrite Hpp in Ht. injection Ht as <-. rewrite Hpr.
    destruct (try_block_log env st p) as [[Hl _]|(pid & n & _ & _ & Hl)];
      destruct (try_block env st p) as [[msg st'|err] log]; simpl in Hl;
      try destruct (classifyError err); simpl; rewrite Hl; reflexivity.
Qed.

Lemma token_precedence_mismatch_witness :
  stage (snd (startCheckout
    (mkSt shopping (Some "tok_1234567890") (Some "token_placeholder") [sample_item] 1999 None None)))
    = collectPayment /\
  collectPaymentInfo None
    (mkSt shopping (Some "tok_1234567890") (Some "token_placeholder") [sample_item] 1999 None None)
    = (WalletWidgetView, None,
       mkSt shopping (Some "tok_1234567890") (Some "token_placeholder") [sample_item] 1999 None None) /\
  hd_error (snd (processPurchase completes_at_3_env
    (mkSt shopping (Some "tok_1234567890") (Some "token_placeholder") [sample_item] 1999 None None)))
    = Some (EvPost "tok_1234567890" [sample_item] 1999).
Proof.
  apply (token_precedence_mismatch completes_at_3_env
           (mkSt shopping (Some "tok_1234567890") (Some "token_placeholder") [sample_item] 1999 None None)
           "tok_1234567890").
  - simpl. discriminate.
  - reflexivity.
  - reflexivity.
  - reflexivity.
Defined.
